(** * The in-memory git client fixture of [pkg/client/mock]

    A shallow embedding of [MockClient] (src/client/interface.go) and of
    the parts of Go's standard library it calls ([strings.Join],
    [crypto/sha1], [fmt.Sprintf] with [%x] and [%d]), followed by the
    properties of the fixture.

    Conventions of the embedding:
    - a Go [string] is a Rocq [string] (a sequence of 8-bit characters);
    - a Go [[]byte] is a [slice]: [None] is the nil slice, [Some l] a
      non-nil slice holding the bytes [l]; callers are taken not to write
      into a slice after handing it to the fixture;
    - a Go [map[string]V] built by [make] is a [gmap string V]; a fixture
      is one that [New] built, so its five maps are allocated;
    - a Go [error] is an [option error], [None] being [nil];
    - a method with a pointer receiver that mutates the fixture returns
      the new fixture next to its results;
    - [t.Fatalf] ends the running test: assertion methods return a
      [verdict];
    - a [*scm.PullRequestInput] is an [option]: [None] is the nil pointer,
      [Some x] a pointer to the record [x]; callers are taken not to
      change a record after submitting it;
    - one test drives one fixture, call after call. *)

From Stdlib Require Import ZArith List String Ascii DecimalString.
From Stdlib.Strings Require Import Byte.
From Stdlib Require DecimalZ DecimalPos.
From stdpp Require Import gmap strings list fin_maps.
Import ListNotations.

(** ** Go values *)

Definition slice := option (list byte).

(** The bytes a slice holds; the nil slice holds none. *)
Definition slice_bytes (b : slice) : list byte :=
  match b with
  | Some l => l
  | None => []
  end.

(** [[]byte(s)] for a string constant. *)
Definition bytes_of (s : string) : slice := Some (list_byte_of_string s).

(** ** crypto/sha1 (FIPS 180-4), on 32-bit words held in [Z] *)

Module sha1.
Local Open Scope Z_scope.

Definition Size : nat := 20.

Definition wrap32 (x : Z) : Z := x mod 4294967296.

Definition rotl (n x : Z) : Z :=
  wrap32 (Z.lor (Z.shiftl x n) (Z.shiftr x (32 - n))).

Definition byte_val (b : byte) : Z := Z.of_N (Byte.to_N b).

Definition byte_of (z : Z) : byte :=
  match Byte.of_N (Z.to_N (z mod 256)) with
  | Some b => b
  | None => x00
  end.

(** Big-endian encodings of a 32-bit and of a 64-bit word. *)
Definition putUint32 (w : Z) : list byte :=
  [byte_of (Z.shiftr w 24); byte_of (Z.shiftr w 16);
   byte_of (Z.shiftr w 8); byte_of w].

Definition putUint64 (w : Z) : list byte :=
  putUint32 (Z.shiftr w 32) ++ putUint32 w.

Definition uint32 (b0 b1 b2 b3 : byte) : Z :=
  Z.lor (Z.lor (Z.shiftl (byte_val b0) 24) (Z.shiftl (byte_val b1) 16))
        (Z.lor (Z.shiftl (byte_val b2) 8) (byte_val b3)).

Fixpoint words (bs : list byte) : list Z :=
  match bs with
  | b0 :: b1 :: b2 :: b3 :: rest => uint32 b0 b1 b2 b3 :: words rest
  | _ => []
  end.

(** The message followed by 0x80, zeros up to 56 modulo 64, and the
    length in bits as a 64-bit big-endian word. *)
Definition pad (msg : list byte) : list byte :=
  let len := Z.of_nat (length msg) in
  msg ++ x80 :: repeat x00 (Z.to_nat ((55 - len) mod 64))
      ++ putUint64 ((8 * len) mod 18446744073709551616).

Record digest := Digest { h0 : Z; h1 : Z; h2 : Z; h3 : Z; h4 : Z }.

Definition init : digest :=
  Digest 0x67452301 0xEFCDAB89 0x98BADCFE 0x10325476 0xC3D2E1F0.

(** The message schedule, newest word first while it is extended. *)
Fixpoint extend (n : nat) (w : list Z) : list Z :=
  match n with
  | O => w
  | S n' =>
      let x := Z.lxor (Z.lxor (nth 2 w 0) (nth 7 w 0))
                      (Z.lxor (nth 13 w 0) (nth 15 w 0)) in
      extend n' (rotl 1 x :: w)
  end.

Definition schedule (blk : list Z) : list Z := rev (extend 64 (rev blk)).

Definition f (t : nat) (b c d : Z) : Z :=
  if (t <? 20)%nat then Z.lor (Z.land b c) (Z.land (Z.lxor b 0xFFFFFFFF) d)
  else if (t <? 40)%nat then Z.lxor (Z.lxor b c) d
  else if (t <? 60)%nat then
    Z.lor (Z.lor (Z.land b c) (Z.land b d)) (Z.land c d)
  else Z.lxor (Z.lxor b c) d.

Definition k (t : nat) : Z :=
  if (t <? 20)%nat then 0x5A827999
  else if (t <? 40)%nat then 0x6ED9EBA1
  else if (t <? 60)%nat then 0x8F1BBCDC
  else 0xCA62C1D6.

Definition round (t : nat) (s : digest) (w : Z) : digest :=
  let '(Digest a b c d e) := s in
  Digest (wrap32 (rotl 5 a + f t b c d + e + k t + w)) a (rotl 30 b) c d.

Fixpoint rounds (t : nat) (ws : list Z) (s : digest) : digest :=
  match ws with
  | [] => s
  | w :: ws' => rounds (S t) ws' (round t s w)
  end.

Definition block (h : digest) (blk : list Z) : digest :=
  let s := rounds 0 (schedule blk) h in
  Digest (wrap32 (h0 h + h0 s)) (wrap32 (h1 h + h1 s))
         (wrap32 (h2 h + h2 s)) (wrap32 (h3 h + h3 s))
         (wrap32 (h4 h + h4 s)).

Fixpoint blocks (n : nat) (ws : list Z) (h : digest) : digest :=
  match n with
  | O => h
  | S n' => blocks n' (skipn 16 ws) (block h (firstn 16 ws))
  end.

(** [h := sha1.New(); h.Write(b); h.Sum(nil)] *)
Definition Sum (b : list byte) : list byte :=
  let ws := words (pad b) in
  let h := blocks (length ws / 16) ws init in
  putUint32 (h0 h) ++ putUint32 (h1 h) ++ putUint32 (h2 h)
    ++ putUint32 (h3 h) ++ putUint32 (h4 h).
End sha1.

(** ** fmt.Sprintf *)

Definition hexdigits : list ascii := list_ascii_of_string "0123456789abcdef".

Definition hexdigit (n : N) : ascii := nth (N.to_nat n) hexdigits "0"%char.

Definition hex_byte (b : byte) : list ascii :=
  [hexdigit (Byte.to_N b / 16); hexdigit (Byte.to_N b mod 16)].

(** [fmt.Sprintf("%x", bs)] for a byte slice: two lowercase digits a byte. *)
Definition Sprintf_x (bs : list byte) : string :=
  string_of_list_ascii (flat_map hex_byte bs).

(** [fmt.Sprintf("%d", n)] *)
Definition Sprintf_d (n : Z) : string := NilZero.string_of_int (Z.to_int n).

(** [bytesSha1] *)
Definition bytesSha1 (b : slice) : string := Sprintf_x (sha1.Sum (slice_bytes b)).

(** ** Errors, contexts and the test handle *)

(** A Go [error] value: one made by [errors.New], or a package-level
    error variable, known by its qualified name. *)
Inductive error :=
  | errors_New (text : string)
  | error_var (qualified_name : string).

Inductive Context : Set := context_Background.

Inductive testing_T := testing_T_named (name : string).

(** An argument handed to [t.Fatalf], kept unrendered. *)
Inductive arg :=
  | Str (s : string)
  | Int (n : Z)
  | Files (tbl : gmap string slice)
  | Branches (tbl : gmap string bool)
  | PullRequests {A : Type} (tbl : gmap string (list A)).

(** What an assertion method does to the running test: it returns, or it
    calls [t.Fatalf], which stops the test. *)
Inductive verdict :=
  | Pass
  | Fatalf (format : string) (args : list arg).

(** ** The go-scm types the fixture handles *)

Module scm.
(** Modelled from the spec: [scm.Content] is declared in go-scm, which
    is not part of this repository; the fixture fills in the content
    bytes and the revision identifier and leaves every other field at
    its zero value. *)
Record Content := { Data : slice; Sha : string }.

(** Modelled from the spec: [scm.PullRequest] is declared in go-scm;
    the fixture fills in the number and the link. *)
Record PullRequest := { Number : Z; Link : string }.

(** Modelled from the spec: [scm.PullRequestInput] is declared in
    go-scm; a pull-request input value is a plain record of strings,
    compared by full structural equality. The fixture stores and
    compares such a value and never reads a field of it. *)
Record PullRequestInput :=
  { Title : string; Head : string; Base : string; Body : string }.

(** Modelled from the spec: [scm.Signature] is declared in go-scm; the
    fixture never looks at it. *)
Record Signature := { Name : string; Email : string }.

(** Modelled from the spec: [scm.ErrNotSupported] is go-scm's
    "unsupported operation" error variable. *)
Definition ErrNotSupported : error := error_var "scm.ErrNotSupported".
End scm.

#[global] Instance error_eq_dec : EqDecision error.
Proof. solve_decision. Defined.

#[global] Instance PullRequestInput_eq_dec : EqDecision scm.PullRequestInput.
Proof. solve_decision. Defined.

(** [reflect.DeepEqual] on two [*scm.PullRequestInput]: both nil, or both
    non-nil and pointing to equal records. *)
Definition DeepEqual (x y : option scm.PullRequestInput) : bool :=
  bool_decide (x = y).

(** ** The fixture *)

(** [key]: [strings.Join(s, ":")] *)
Definition key (s : list string) : string := String.concat ":" s.

Record MockClient := {
  t : testing_T;
  files : gmap string slice;
  GetFileErr : option error;
  updatedFiles : gmap string slice;
  UpdateFileErr : option error;
  createdBranches : gmap string bool;
  CreateBranchErr : option error;
  branchHeads : gmap string string;
  createdPullRequests : gmap string (list (option scm.PullRequestInput));
  CreatePullRequestErr : option error;
}.

(** Assignments to one field of the fixture. *)
Definition set_files v (m : MockClient) : MockClient :=
  Build_MockClient (t m) v (GetFileErr m) (updatedFiles m) (UpdateFileErr m)
    (createdBranches m) (CreateBranchErr m) (branchHeads m)
    (createdPullRequests m) (CreatePullRequestErr m).

Definition set_GetFileErr v (m : MockClient) : MockClient :=
  Build_MockClient (t m) (files m) v (updatedFiles m) (UpdateFileErr m)
    (createdBranches m) (CreateBranchErr m) (branchHeads m)
    (createdPullRequests m) (CreatePullRequestErr m).

Definition set_updatedFiles v (m : MockClient) : MockClient :=
  Build_MockClient (t m) (files m) (GetFileErr m) v (UpdateFileErr m)
    (createdBranches m) (CreateBranchErr m) (branchHeads m)
    (createdPullRequests m) (CreatePullRequestErr m).

Definition set_UpdateFileErr v (m : MockClient) : MockClient :=
  Build_MockClient (t m) (files m) (GetFileErr m) (updatedFiles m) v
    (createdBranches m) (CreateBranchErr m) (branchHeads m)
    (createdPullRequests m) (CreatePullRequestErr m).

Definition set_createdBranches v (m : MockClient) : MockClient :=
  Build_MockClient (t m) (files m) (GetFileErr m) (updatedFiles m)
    (UpdateFileErr m) v (CreateBranchErr m) (branchHeads m)
    (createdPullRequests m) (CreatePullRequestErr m).

Definition set_CreateBranchErr v (m : MockClient) : MockClient :=
  Build_MockClient (t m) (files m) (GetFileErr m) (updatedFiles m)
    (UpdateFileErr m) (createdBranches m) v (branchHeads m)
    (createdPullRequests m) (CreatePullRequestErr m).

Definition set_branchHeads v (m : MockClient) : MockClient :=
  Build_MockClient (t m) (files m) (GetFileErr m) (updatedFiles m)
    (UpdateFileErr m) (createdBranches m) (CreateBranchErr m) v
    (createdPullRequests m) (CreatePullRequestErr m).

Definition set_createdPullRequests v (m : MockClient) : MockClient :=
  Build_MockClient (t m) (files m) (GetFileErr m) (updatedFiles m)
    (UpdateFileErr m) (createdBranches m) (CreateBranchErr m) (branchHeads m)
    v (CreatePullRequestErr m).

Definition set_CreatePullRequestErr v (m : MockClient) : MockClient :=
  Build_MockClient (t m) (files m) (GetFileErr m) (updatedFiles m)
    (UpdateFileErr m) (createdBranches m) (CreateBranchErr m) (branchHeads m)
    (createdPullRequests m) v.

(** [New] *)
Definition New (t0 : testing_T) : MockClient :=
  {| t := t0;
     files := ∅;
     GetFileErr := None;
     updatedFiles := ∅;
     UpdateFileErr := None;
     createdBranches := ∅;
     CreateBranchErr := None;
     branchHeads := ∅;
     createdPullRequests := ∅;
     CreatePullRequestErr := None |}.

(** [MockClient.GetFile] *)
Definition GetFile (m : MockClient) (ctx : Context) (repo ref path : string)
  : option scm.Content * option error :=
  match GetFileErr m with
  | Some err => (Some {| scm.Data := None; scm.Sha := "" |}, Some err)
  | None =>
      match files m !! key [repo; path; ref] with
      | Some b => (Some {| scm.Data := b; scm.Sha := bytesSha1 b |}, None)
      | None => (None, Some (errors_New "not found"))
      end
  end.

(** [MockClient.UpdateFile] *)
Definition UpdateFile (m : MockClient) (ctx : Context)
    (repo branch path message previousSHA : string)
    (signature : scm.Signature) (content : slice)
  : MockClient * option error :=
  match UpdateFileErr m with
  | Some err => (m, Some err)
  | None =>
      (set_updatedFiles (<[key [repo; path; branch] := content]> (updatedFiles m)) m,
       None)
  end.

(** [MockClient.DeleteFile] *)
Definition DeleteFile (c : MockClient) (ctx : Context)
    (repo branch path message previousSHA : string)
    (signature : scm.Signature) (content : slice)
  : MockClient * option error :=
  (c, Some scm.ErrNotSupported).

(** [MockClient.CreatePullRequest] *)
Definition CreatePullRequest (m : MockClient) (ctx : Context) (repo : string)
    (inp : option scm.PullRequestInput)
  : MockClient * (option scm.PullRequest * option error) :=
  match CreatePullRequestErr m with
  | Some err => (m, (None, Some err))
  | None =>
      let existing :=
        match createdPullRequests m !! repo with
        | Some l => l
        | None => []
        end in
      let existing := existing ++ [inp] in
      let m' :=
        set_createdPullRequests (<[repo := existing]> (createdPullRequests m)) m in
      let number := Z.of_nat (length existing) in
      (m', (Some {| scm.Number := number;
                    scm.Link := "https://example.com/pull-request/"
                                +:+ Sprintf_d number |}, None))
  end.

(** [MockClient.CreateBranch] *)
Definition CreateBranch (m : MockClient) (ctx : Context) (repo branch sha : string)
  : MockClient * option error :=
  match CreateBranchErr m with
  | Some err => (m, Some err)
  | None =>
      (set_createdBranches (<[key [repo; branch; sha] := true]> (createdBranches m)) m,
       None)
  end.

(** [MockClient.GetBranchHead] *)
Definition GetBranchHead (m : MockClient) (ctx : Context) (repo branch : string)
  : string * option error :=
  match branchHeads m !! key [repo; branch] with
  | Some ref => (ref, None)
  | None => ("", Some (errors_New "not found"))
  end.

(** [MockClient.AddFileContents] *)
Definition AddFileContents (m : MockClient) (repo path ref : string) (body : slice)
  : MockClient :=
  set_files (<[key [repo; path; ref] := body]> (files m)) m.

(** [MockClient.GetUpdatedContents]: a missing key reads as the zero
    value of [[]byte], the nil slice. *)
Definition GetUpdatedContents (m : MockClient) (repo path ref : string) : slice :=
  match updatedFiles m !! key [repo; path; ref] with
  | Some c => c
  | None => None
  end.

(** [MockClient.AddBranchHead] *)
Definition AddBranchHead (m : MockClient) (repo branch sha : string) : MockClient :=
  set_branchHeads (<[key [repo; branch] := sha]> (branchHeads m)) m.

(** [MockClient.AssertBranchCreated] *)
Definition AssertBranchCreated (m : MockClient) (repo branch sha : string) : verdict :=
  match createdBranches m !! key [repo; branch; sha] with
  | Some _ => Pass
  | None =>
      Fatalf "branch %s not created in repo %s from sha %s"
             [Str branch; Str repo; Str sha]
  end.

(** [MockClient.RefuteBranchCreated] *)
Definition RefuteBranchCreated (m : MockClient) (repo branch sha : string) : verdict :=
  match createdBranches m !! key [repo; branch; sha] with
  | Some _ =>
      Fatalf "branch %s was created in repo %s from sha %s"
             [Str branch; Str repo; Str sha]
  | None => Pass
  end.

(** [m.createdPullRequests[repo]]: a missing key reads as the nil slice. *)
Definition pullRequestsOf (m : MockClient) (repo : string)
  : list (option scm.PullRequestInput) :=
  match createdPullRequests m !! repo with
  | Some l => l
  | None => []
  end.

(** [MockClient.AssertPullRequestCreated] *)
Definition AssertPullRequestCreated (m : MockClient) (repo : string)
    (inp : option scm.PullRequestInput) : verdict :=
  if existsb (DeepEqual inp) (pullRequestsOf m repo) then Pass
  else Fatalf "pullrequest not created in repo %s" [Str repo].

(** [MockClient.RefutePullRequestCreated] *)
Definition RefutePullRequestCreated (m : MockClient) (repo : string)
    (inp : option scm.PullRequestInput) : verdict :=
  if existsb (DeepEqual inp) (pullRequestsOf m repo)
  then Fatalf "pullrequest was created in repo %s" [Str repo]
  else Pass.

(** [MockClient.AssertNoBranchesCreated] *)
Definition AssertNoBranchesCreated (m : MockClient) : verdict :=
  let l := size (createdBranches m) in
  if (0 <? l)%nat
  then Fatalf "expected no branches to be created: got %d" [Int (Z.of_nat l)]
  else Pass.

(** [MockClient.AssertNoPullRequestsCreated] *)
Definition AssertNoPullRequestsCreated (m : MockClient) : verdict :=
  let l := size (createdPullRequests m) in
  if (0 <? l)%nat
  then Fatalf "expected no PullRequests to be created: got %d" [Int (Z.of_nat l)]
  else Pass.

(** [MockClient.AssertNoInteractions] *)
Definition AssertNoInteractions (m : MockClient) : verdict :=
  if negb (size (updatedFiles m) =? 0)%nat
  then Fatalf "files were updated %#v" [Files (updatedFiles m)]
  else if negb (size (createdBranches m) =? 0)%nat
  then Fatalf "branches created %#v" [Branches (createdBranches m)]
  else if negb (size (createdPullRequests m) =? 0)%nat
  then Fatalf "pull requests created %#v" [PullRequests (createdPullRequests m)]
  else Pass.

(** ** A test as a sequence of calls on one fixture

    A test drives the fixture through the client interface, the seeding
    methods and assignments to the four exported override fields. *)

Inductive call :=
  | CallGetFile (ctx : Context) (repo ref path : string)
  | CallUpdateFile (ctx : Context) (repo branch path message previousSHA : string)
      (signature : scm.Signature) (content : slice)
  | CallDeleteFile (ctx : Context) (repo branch path message previousSHA : string)
      (signature : scm.Signature) (content : slice)
  | CallCreatePullRequest (ctx : Context) (repo : string)
      (inp : option scm.PullRequestInput)
  | CallCreateBranch (ctx : Context) (repo branch sha : string)
  | CallGetBranchHead (ctx : Context) (repo branch : string)
  | CallAddFileContents (repo path ref : string) (body : slice)
  | CallAddBranchHead (repo branch sha : string)
  | AssignGetFileErr (err : option error)
  | AssignUpdateFileErr (err : option error)
  | AssignCreateBranchErr (err : option error)
  | AssignCreatePullRequestErr (err : option error).

Inductive reply :=
  | RetContent (c : option scm.Content) (err : option error)
  | RetError (err : option error)
  | RetPullRequest (pr : option scm.PullRequest) (err : option error)
  | RetString (s : string) (err : option error)
  | RetNothing.

Definition step (m : MockClient) (c : call) : MockClient * reply :=
  match c with
  | CallGetFile ctx repo ref path =>
      let '(content, err) := GetFile m ctx repo ref path in
      (m, RetContent content err)
  | CallUpdateFile ctx repo branch path message previousSHA signature content =>
      let '(m', err) :=
        UpdateFile m ctx repo branch path message previousSHA signature content in
      (m', RetError err)
  | CallDeleteFile ctx repo branch path message previousSHA signature content =>
      let '(m', err) :=
        DeleteFile m ctx repo branch path message previousSHA signature content in
      (m', RetError err)
  | CallCreatePullRequest ctx repo inp =>
      let '(m', (pr, err)) := CreatePullRequest m ctx repo inp in
      (m', RetPullRequest pr err)
  | CallCreateBranch ctx repo branch sha =>
      let '(m', err) := CreateBranch m ctx repo branch sha in
      (m', RetError err)
  | CallGetBranchHead ctx repo branch =>
      let '(sha, err) := GetBranchHead m ctx repo branch in
      (m, RetString sha err)
  | CallAddFileContents repo path ref body =>
      (AddFileContents m repo path ref body, RetNothing)
  | CallAddBranchHead repo branch sha =>
      (AddBranchHead m repo branch sha, RetNothing)
  | AssignGetFileErr err => (set_GetFileErr err m, RetNothing)
  | AssignUpdateFileErr err => (set_UpdateFileErr err m, RetNothing)
  | AssignCreateBranchErr err => (set_CreateBranchErr err m, RetNothing)
  | AssignCreatePullRequestErr err => (set_CreatePullRequestErr err m, RetNothing)
  end.

(** The fixture after a sequence of calls. *)
Fixpoint exec (m : MockClient) (cs : list call) : MockClient :=
  match cs with
  | [] => m
  | c :: cs' => exec (fst (step m c)) cs'
  end.

(** Every call of the sequence with what it returned. *)
Fixpoint trace (m : MockClient) (cs : list call) : list (call * reply) :=
  match cs with
  | [] => []
  | c :: cs' => (c, snd (step m c)) :: trace (fst (step m c)) cs'
  end.

(** A call of the write path that returned no error. *)
Definition wrote (cr : call * reply) : bool :=
  match cr with
  | (CallUpdateFile _ _ _ _ _ _ _ _, RetError None) => true
  | (CallCreateBranch _ _ _ _, RetError None) => true
  | (CallCreatePullRequest _ _ _, RetPullRequest _ None) => true
  | _ => false
  end.

(** A successful [CreatePullRequest] on [repo]: its input and its result. *)
Definition created (repo : string) (cr : call * reply)
  : option (option scm.PullRequestInput * scm.PullRequest) :=
  match cr with
  | (CallCreatePullRequest _ r inp, RetPullRequest (Some pr) None) =>
      if decide (r = repo) then Some (inp, pr) else None
  | _ => None
  end.

(** The calls of the client's write path, and the seeding calls. *)
Definition is_write (c : call) : bool :=
  match c with
  | CallUpdateFile _ _ _ _ _ _ _ _ | CallDeleteFile _ _ _ _ _ _ _ _
  | CallCreatePullRequest _ _ _ | CallCreateBranch _ _ _ _ => true
  | _ => false
  end.

Definition is_seed (c : call) : bool :=
  match c with
  | CallAddFileContents _ _ _ _ | CallAddBranchHead _ _ _ => true
  | _ => false
  end.

(** ** Vocabulary of the statements *)

(** The string holds no separator character. *)
Fixpoint no_sep (s : string) : bool :=
  match s with
  | EmptyString => true
  | String c s' => negb (Ascii.eqb c ":") && no_sep s'
  end.

(** The character is one of [0-9a-f]. *)
Definition lower_hex (c : ascii) : bool :=
  existsb (Ascii.eqb c) hexdigits.

(** The five state tables of two fixtures agree. *)
Definition same_tables (m m' : MockClient) : Prop :=
  files m = files m' ∧ updatedFiles m = updatedFiles m'
  ∧ createdBranches m = createdBranches m' ∧ branchHeads m = branchHeads m'
  ∧ createdPullRequests m = createdPullRequests m'.

(** None of the three observation tables holds an entry. *)
Definition untouched (m : MockClient) : Prop :=
  updatedFiles m = ∅ ∧ createdBranches m = ∅ ∧ createdPullRequests m = ∅.

(** A change of the fixture applied to the fixture a method returns. *)
Definition after {A : Type} (g : MockClient → MockClient) (r : MockClient * A)
  : MockClient * A :=
  (g (fst r), snd r).

(** ** Vocabulary of the further properties *)

(** An assignment to one of the four override fields. *)
Definition is_assign (c : call) : bool :=
  match c with
  | AssignGetFileErr _ | AssignUpdateFileErr _ | AssignCreateBranchErr _
  | AssignCreatePullRequestErr _ => true
  | _ => false
  end.

(** A successful [UpdateFile]: the key it wrote and the content. *)
Definition updated (cr : call * reply) : option (string * slice) :=
  match cr with
  | (CallUpdateFile _ repo branch path _ _ _ content, RetError None) =>
      Some (key [repo; path; branch], content)
  | _ => None
  end.

(** The content of the last successful [UpdateFile] of the log under the
    key [k], if there is one. *)
Fixpoint last_written (k : string) (log : list (call * reply)) : option slice :=
  match log with
  | [] => None
  | cr :: log' =>
      match last_written k log' with
      | Some c => Some c
      | None =>
          match updated cr with
          | Some (k', c) => if decide (k' = k) then Some c else None
          | None => None
          end
      end
  end.

(** A successful [CreateBranch]: the key it recorded. *)
Definition branched (cr : call * reply) : option string :=
  match cr with
  | (CallCreateBranch _ repo branch sha, RetError None) =>
      Some (key [repo; branch; sha])
  | _ => None
  end.

(** A successful [CreatePullRequest]: the repository it was made on. *)
Definition requested (cr : call * reply) : option string :=
  match cr with
  | (CallCreatePullRequest _ repo _, RetPullRequest _ None) => Some repo
  | _ => None
  end.

(** A [CreatePullRequest] on [repo] that returned without error: its
    input and the pull request it returned, nil or not. *)
Definition submitted (repo : string) (cr : call * reply)
  : option (option scm.PullRequestInput * option scm.PullRequest) :=
  match cr with
  | (CallCreatePullRequest _ r inp, RetPullRequest pr None) =>
      if decide (r = repo) then Some (inp, pr) else None
  | _ => None
  end.

(** Every recorded branch flag is [true] and every recorded sequence of
    pull-request inputs holds at least one input. *)
Definition well_recorded (m : MockClient) : Prop :=
  (∀ k v, createdBranches m !! k = Some v → v = true)
  ∧ (∀ repo l, createdPullRequests m !! repo = Some l → l ≠ []).

(** ** Proof steps shared by the lemmas below *)

(** Open the methods of the fixture. *)
Ltac unfold_ops :=
  unfold GetFile, UpdateFile, DeleteFile, CreatePullRequest, CreateBranch,
    GetBranchHead, AddFileContents, AddBranchHead, GetUpdatedContents,
    AssertBranchCreated, RefuteBranchCreated, AssertPullRequestCreated,
    RefutePullRequestCreated, pullRequestsOf, after in *.

(** Case on the innermost test of the goal: an override field or a table
    lookup. *)
Ltac destruct_scrutinee :=
  match goal with
  | |- context [match ?x with _ => _ end] =>
      lazymatch x with
      | context [match _ with _ => _ end] => fail
      | _ => destruct x eqn:?
      end
  end.

(** Run one call on a fixture given by its fields, through every branch. *)
Ltac by_step m c :=
  destruct c; destruct m; cbn; unfold_ops; cbn;
  repeat (destruct_scrutinee; cbn).

(** ** Checks of the embedding on known values *)

Example sha1_empty :
  bytesSha1 None = "da39a3ee5e6b4b0d3255bfef95601890afd80709"%string.
Proof. vm_compute. reflexivity. Qed.

Example sha1_abc :
  bytesSha1 (bytes_of "abc") = "a9993e364706816aba3e25717850c26c9cd0d89d"%string.
Proof. vm_compute. reflexivity. Qed.

Example sha1_hello :
  bytesSha1 (bytes_of "hello") = "aaf4c61ddcc5e8a2dabede0f3b482cd9aea9434d"%string.
Proof. vm_compute. reflexivity. Qed.

Example sha1_two_blocks :
  bytesSha1 (bytes_of "abcdbcdecdefdefgefghfghighijhijkijkljklmklmnlmnomnopnopq")
  = "84983e441c3bd26ebaae4aa1f95129e5e54670f1"%string.
Proof. vm_compute. reflexivity. Qed.

Example key_three : key ["r"; "a.txt"; "main"] = "r:a.txt:main".
Proof. reflexivity. Qed.

Example Sprintf_d_12 : Sprintf_d 12 = "12".
Proof. reflexivity. Qed.

(** The scenario of the specification: a seeded read, then a write with a
    stale revision. *)
Example scenario_read :
  GetFile (AddFileContents (New (testing_T_named "T")) "r" "a.txt" "main"
             (bytes_of "hello"))
          context_Background "r" "main" "a.txt"
  = (Some {| scm.Data := bytes_of "hello";
             scm.Sha := "aaf4c61ddcc5e8a2dabede0f3b482cd9aea9434d" |}, None).
Proof. vm_compute. reflexivity. Qed.

Example scenario_write :
  let m := AddFileContents (New (testing_T_named "T")) "r" "a.txt" "main"
             (bytes_of "hello") in
  let '(m', err) :=
    UpdateFile m context_Background "r" "feature" "a.txt" "msg" "wrongsha"
      {| scm.Name := "n"; scm.Email := "e" |} (bytes_of "world") in
  err = None ∧ GetUpdatedContents m' "r" "a.txt" "feature" = bytes_of "world".
Proof. vm_compute. split; reflexivity. Qed.

(** ** The content address *)

Lemma Sum_length (b : list byte) : length (sha1.Sum b) = sha1.Size.
Proof. unfold sha1.Sum, sha1.putUint32. rewrite !length_app. reflexivity. Qed.

Lemma hex_byte_lower (b : byte) : forallb lower_hex (hex_byte b) = true.
Proof. destruct b; reflexivity. Qed.

Lemma Sprintf_x_chars (bs : list byte) :
  list_ascii_of_string (Sprintf_x bs) = flat_map hex_byte bs.
Proof. unfold Sprintf_x. apply list_ascii_of_string_of_list_ascii. Qed.

Lemma Sprintf_x_lower (bs : list byte) :
  forallb lower_hex (list_ascii_of_string (Sprintf_x bs)) = true.
Proof.
  rewrite Sprintf_x_chars. induction bs as [|b bs IH]; [reflexivity|].
  cbn [flat_map]. rewrite forallb_app, hex_byte_lower, IH. reflexivity.
Qed.

Lemma string_of_list_ascii_length (l : list ascii) :
  String.length (string_of_list_ascii l) = length l.
Proof. induction l as [|c l IH]; cbn; [reflexivity | now rewrite IH]. Qed.

Lemma Sprintf_x_length (bs : list byte) :
  String.length (Sprintf_x bs) = 2 * length bs.
Proof.
  unfold Sprintf_x. rewrite string_of_list_ascii_length.
  induction bs as [|b bs IH]; [reflexivity|].
  cbn [flat_map hex_byte app length]. rewrite IH. lia.
Qed.

Lemma bytesSha1_shape (b : slice) :
  String.length (bytesSha1 b) = 40
  ∧ forallb lower_hex (list_ascii_of_string (bytesSha1 b)) = true.
Proof.
  unfold bytesSha1. split.
  - rewrite Sprintf_x_length, Sum_length. reflexivity.
  - apply Sprintf_x_lower.
Qed.

(** ** The operations one at a time *)

(** C9. [DeleteFile] returns the unsupported-operation error for every
    fixture and all arguments, and hands the fixture back as it was: no
    table and no override field changes. *)
Theorem DeleteFile_unsupported (c : MockClient) (ctx : Context)
    (repo branch path message previousSHA : string)
    (signature : scm.Signature) (content : slice) :
  DeleteFile c ctx repo branch path message previousSHA signature content
  = (c, Some scm.ErrNotSupported).
Proof. reflexivity. Qed.

(** C10. [GetUpdatedContents] returns a slice and nothing else; under a
    key where no update is recorded it returns the nil slice, and in
    general it returns exactly what the table holds, so a recorded nil
    content and a missing entry read the same. *)
Theorem GetUpdatedContents_absent (m : MockClient) (repo path ref : string) :
  (updatedFiles m !! key [repo; path; ref] = None →
   GetUpdatedContents m repo path ref = None)
  ∧ (∀ c, updatedFiles m !! key [repo; path; ref] = Some c →
          GetUpdatedContents m repo path ref = c)
  ∧ GetUpdatedContents (New (t m)) repo path ref = None.
Proof.
  unfold GetUpdatedContents. split; [|split].
  - intros ->. reflexivity.
  - intros c ->. reflexivity.
  - reflexivity.
Qed.

Lemma GetUpdatedContents_absent_witness :
  GetUpdatedContents
    (AddFileContents (New (testing_T_named "T")) "r" "a.txt" "main"
       (bytes_of "hello"))
    "r" "a.txt" "main" = None.
Proof.
  exact (proj1 (GetUpdatedContents_absent
                  (AddFileContents (New (testing_T_named "T")) "r" "a.txt" "main"
                     (bytes_of "hello")) "r" "a.txt" "main") eq_refl).
Defined.

(** C4. With no [UpdateFile] override set, [UpdateFile] returns no error
    and stores the content under the key of (repository, path, branch),
    replacing whatever was there; message, previous revision and
    signature play no part. [GetUpdatedContents] on that key then
    returns the content, and after a further write the further content.
    The other tables and the override stay as they were. *)
Theorem UpdateFile_records (m : MockClient) (ctx : Context)
    (repo branch path message previousSHA : string)
    (signature : scm.Signature) (content : slice) :
  UpdateFileErr m = None →
  let r := UpdateFile m ctx repo branch path message previousSHA signature content in
  snd r = None
  ∧ updatedFiles (fst r) = <[key [repo; path; branch] := content]> (updatedFiles m)
  ∧ GetUpdatedContents (fst r) repo path branch = content
  ∧ (∀ message' previousSHA' signature',
        UpdateFile m ctx repo branch path message' previousSHA' signature' content = r)
  ∧ (∀ ctx' message' previousSHA' signature' content',
        let r' := UpdateFile (fst r) ctx' repo branch path message' previousSHA'
                    signature' content' in
        snd r' = None ∧ GetUpdatedContents (fst r') repo path branch = content')
  ∧ (UpdateFileErr (fst r) = None ∧ files (fst r) = files m
     ∧ createdBranches (fst r) = createdBranches m
     ∧ branchHeads (fst r) = branchHeads m
     ∧ createdPullRequests (fst r) = createdPullRequests m).
Proof.
  intros Hnone. destruct m; cbn in Hnone; subst. unfold_ops; cbn.
  repeat split; intros; rewrite ?lookup_insert_eq; reflexivity.
Qed.

Lemma UpdateFile_records_witness :
  GetUpdatedContents
    (fst (UpdateFile (New (testing_T_named "T")) context_Background
            "r" "feature" "a.txt" "msg" "wrongsha"
            {| scm.Name := "n"; scm.Email := "e" |} (bytes_of "world")))
    "r" "a.txt" "feature" = bytes_of "world".
Proof.
  exact (proj1 (proj2 (proj2
           (UpdateFile_records (New (testing_T_named "T")) context_Background
              "r" "feature" "a.txt" "msg" "wrongsha"
              {| scm.Name := "n"; scm.Email := "e" |} (bytes_of "world")
              eq_refl)))).
Defined.

(** C6, as stated, fails when the [CreateBranch] override is set: both
    calls return the override, nothing is recorded, [AssertBranchCreated]
    fails the test and [RefuteBranchCreated] passes. *)
Lemma CreateBranch_override_counterexample :
  let m := set_CreateBranchErr (Some (errors_New "outage"))
             (New (testing_T_named "T")) in
  let r1 := CreateBranch m context_Background "r" "feature" "abc" in
  let r2 := CreateBranch (fst r1) context_Background "r" "feature" "abc" in
  snd r1 = Some (errors_New "outage")
  ∧ snd r2 = Some (errors_New "outage")
  ∧ size (createdBranches (fst r2)) = 0
  ∧ AssertBranchCreated (fst r2) "r" "feature" "abc"
    = Fatalf "branch %s not created in repo %s from sha %s"
        [Str "feature"; Str "r"; Str "abc"]
  ∧ RefuteBranchCreated (fst r2) "r" "feature" "abc" = Pass.
Proof. vm_compute. repeat split; reflexivity. Qed.

(** C6, amended. With no [CreateBranch] override set, two calls of
    [CreateBranch] with the same (repository, branch, source revision)
    both return no error, the second leaves the fixture exactly as the
    first left it (one entry under that key, and one entry in all on a
    fixture that had none), and after either call [AssertBranchCreated]
    passes and [RefuteBranchCreated] fails the test. *)
Theorem CreateBranch_idempotent (m : MockClient) (ctx : Context)
    (repo branch sha : string) :
  CreateBranchErr m = None →
  let r1 := CreateBranch m ctx repo branch sha in
  let r2 := CreateBranch (fst r1) ctx repo branch sha in
  snd r1 = None ∧ snd r2 = None
  ∧ fst r2 = fst r1
  ∧ createdBranches (fst r1) !! key [repo; branch; sha] = Some true
  ∧ (createdBranches m = ∅ → size (createdBranches (fst r2)) = 1)
  ∧ AssertBranchCreated (fst r1) repo branch sha = Pass
  ∧ AssertBranchCreated (fst r2) repo branch sha = Pass
  ∧ RefuteBranchCreated (fst r1) repo branch sha
    = Fatalf "branch %s was created in repo %s from sha %s"
        [Str branch; Str repo; Str sha]
  ∧ RefuteBranchCreated (fst r2) repo branch sha
    = Fatalf "branch %s was created in repo %s from sha %s"
        [Str branch; Str repo; Str sha].
Proof.
  intros Hnone. destruct m; cbn in Hnone; subst. unfold_ops; cbn.
  rewrite insert_insert_eq, !lookup_insert_eq.
  repeat split; try reflexivity.
  intros ->. rewrite insert_empty. apply map_size_singleton.
Qed.

Lemma CreateBranch_idempotent_witness :
  let r1 := CreateBranch (New (testing_T_named "T")) context_Background
              "r" "feature" "abc" in
  let r2 := CreateBranch (fst r1) context_Background "r" "feature" "abc" in
  snd r1 = None ∧ snd r2 = None ∧ fst r2 = fst r1.
Proof.
  pose proof (CreateBranch_idempotent (New (testing_T_named "T"))
                context_Background "r" "feature" "abc" eq_refl) as H.
  cbv zeta in *. destruct H as (H1 & H2 & H3 & _). auto.
Defined.

(** ** Error injection *)

Lemma GetBranchHead_reads_branchHeads (m m' : MockClient) (ctx ctx' : Context)
    (repo branch : string) :
  branchHeads m = branchHeads m' →
  GetBranchHead m ctx repo branch = GetBranchHead m' ctx' repo branch.
Proof. unfold GetBranchHead. intros ->. reflexivity. Qed.

(** C3, as stated, fails for [GetBranchHead] and [DeleteFile]: on a
    fixture with a seeded branch head and all four override fields set,
    [GetBranchHead] answers from its table and [DeleteFile] returns the
    unsupported-operation error, neither of them the injected error; and
    no fixture with the same tables makes that [GetBranchHead] call fail. *)
Lemma override_counterexample :
  let outage := errors_New "outage" in
  let m0 := AddBranchHead (New (testing_T_named "T")) "r" "main" "abc" in
  let m := set_GetFileErr (Some outage) (set_UpdateFileErr (Some outage)
             (set_CreateBranchErr (Some outage)
                (set_CreatePullRequestErr (Some outage) m0))) in
  GetBranchHead m context_Background "r" "main" = ("abc", None)
  ∧ DeleteFile m context_Background "r" "main" "a.txt" "msg" "abc"
      {| scm.Name := "n"; scm.Email := "e" |} None
    = (m, Some scm.ErrNotSupported)
  ∧ scm.ErrNotSupported ≠ outage
  ∧ ¬ (∃ m', same_tables m m'
             ∧ snd (GetBranchHead m' context_Background "r" "main") ≠ None).
Proof.
  cbv zeta. split; [vm_compute; reflexivity|].
  split; [reflexivity|]. split; [discriminate|].
  intros (m' & (_ & _ & _ & Hheads & _) & Hne). apply Hne.
  rewrite <- (GetBranchHead_reads_branchHeads _ m' context_Background
                context_Background "r" "main" Hheads).
  vm_compute. reflexivity.
Qed.

(** C3, amended. Four operations have an override field of their own:
    [GetFile], [UpdateFile], [CreateBranch] and [CreatePullRequest]. Once
    its field is assigned an error, the operation returns that very error
    and leaves the fixture as it is; assigning the field of one operation
    does not change what another operation does. [DeleteFile] and
    [GetBranchHead] have no override: they behave the same whatever the
    four fields hold. *)
Theorem override_returned_verbatim (m : MockClient) (e : error) :
  (∀ ctx repo ref path,
      GetFile (set_GetFileErr (Some e) m) ctx repo ref path
      = (Some {| scm.Data := None; scm.Sha := "" |}, Some e))
  ∧ (∀ ctx repo branch path message previousSHA signature content,
      UpdateFile (set_UpdateFileErr (Some e) m) ctx repo branch path message
        previousSHA signature content
      = (set_UpdateFileErr (Some e) m, Some e))
  ∧ (∀ ctx repo branch sha,
      CreateBranch (set_CreateBranchErr (Some e) m) ctx repo branch sha
      = (set_CreateBranchErr (Some e) m, Some e))
  ∧ (∀ ctx repo inp,
      CreatePullRequest (set_CreatePullRequestErr (Some e) m) ctx repo inp
      = (set_CreatePullRequestErr (Some e) m, (None, Some e)))
  ∧ (∀ v ctx repo ref path,
      GetFile (set_UpdateFileErr v m) ctx repo ref path = GetFile m ctx repo ref path
      ∧ GetFile (set_CreateBranchErr v m) ctx repo ref path
        = GetFile m ctx repo ref path
      ∧ GetFile (set_CreatePullRequestErr v m) ctx repo ref path
        = GetFile m ctx repo ref path)
  ∧ (∀ v ctx repo branch path message previousSHA signature content,
      let call m := UpdateFile m ctx repo branch path message previousSHA
                      signature content in
      call (set_GetFileErr v m) = after (set_GetFileErr v) (call m)
      ∧ call (set_CreateBranchErr v m) = after (set_CreateBranchErr v) (call m)
      ∧ call (set_CreatePullRequestErr v m)
        = after (set_CreatePullRequestErr v) (call m))
  ∧ (∀ v ctx repo branch sha,
      let call m := CreateBranch m ctx repo branch sha in
      call (set_GetFileErr v m) = after (set_GetFileErr v) (call m)
      ∧ call (set_UpdateFileErr v m) = after (set_UpdateFileErr v) (call m)
      ∧ call (set_CreatePullRequestErr v m)
        = after (set_CreatePullRequestErr v) (call m))
  ∧ (∀ v ctx repo inp,
      let call m := CreatePullRequest m ctx repo inp in
      call (set_GetFileErr v m) = after (set_GetFileErr v) (call m)
      ∧ call (set_UpdateFileErr v m) = after (set_UpdateFileErr v) (call m)
      ∧ call (set_CreateBranchErr v m) = after (set_CreateBranchErr v) (call m))
  ∧ (∀ v ctx repo branch,
      let call m := GetBranchHead m ctx repo branch in
      call (set_GetFileErr v m) = call m
      ∧ call (set_UpdateFileErr v m) = call m
      ∧ call (set_CreateBranchErr v m) = call m
      ∧ call (set_CreatePullRequestErr v m) = call m)
  ∧ (∀ m' ctx repo branch path message previousSHA signature content,
      snd (DeleteFile m' ctx repo branch path message previousSHA signature content)
      = Some scm.ErrNotSupported).
Proof.
  destruct m as [t0 fs gfe ufs ufe cbs cbe bhs prs pre].
  repeat match goal with |- _ ∧ _ => split end; intros; cbv zeta;
    unfold_ops; cbn; try reflexivity.
  - repeat split; reflexivity.
  - destruct ufe; repeat split; reflexivity.
  - destruct cbe; repeat split; reflexivity.
  - destruct pre; repeat split; reflexivity.
  - repeat split; reflexivity.
Qed.

(** ** Composite keys *)

Lemma key2_eq (a b : string) : key [a; b] = a +:+ ":" +:+ b.
Proof. reflexivity. Qed.

Lemma key3_eq (a b c : string) : key [a; b; c] = a +:+ ":" +:+ key [b; c].
Proof. reflexivity. Qed.

(** A string cut at its first separator has one head and one tail. *)
Lemma sep_split (a a' r r' : string) :
  no_sep a = true → no_sep a' = true →
  a +:+ ":" +:+ r = a' +:+ ":" +:+ r' → a = a' ∧ r = r'.
Proof.
  revert a'. induction a as [|c a IH]; intros [|c' a'] Ha Ha' Heq; cbn in *.
  - inversion Heq; subst. auto.
  - inversion Heq; subst. cbn in Ha'. discriminate.
  - inversion Heq; subst. cbn in Ha. discriminate.
  - inversion Heq as [[Hc Htl]]; subst.
    apply andb_prop in Ha as [_ Ha]. apply andb_prop in Ha' as [_ Ha'].
    destruct (IH a' Ha Ha' Htl) as [-> ->]. auto.
Qed.

Lemma key2_inj (a b a' b' : string) :
  no_sep a = true → no_sep a' = true →
  key [a; b] = key [a'; b'] → a = a' ∧ b = b'.
Proof. rewrite !key2_eq. apply sep_split. Qed.

Lemma key3_inj (a b c a' b' c' : string) :
  no_sep a = true → no_sep b = true → no_sep a' = true → no_sep b' = true →
  key [a; b; c] = key [a'; b'; c'] → a = a' ∧ b = b' ∧ c = c'.
Proof.
  intros Ha Hb Ha' Hb'. rewrite !key3_eq. intros Heq.
  destruct (sep_split _ _ _ _ Ha Ha' Heq) as [-> Heq'].
  destruct (key2_inj _ _ _ _ Hb Hb' Heq') as [-> ->]. auto.
Qed.

(** C2, as stated, fails: two different tuples whose components hold
    the separator share one key, so seeding a file under the first makes
    [GetFile] succeed for the second, which was never seeded. *)
Lemma key_collision_counterexample :
  let m := New (testing_T_named "T") in
  ("a:b", "c", "d") ≠ ("a", "b:c", "d")
  ∧ key ["a:b"; "c"; "d"] = key ["a"; "b:c"; "d"]
  ∧ GetFile m context_Background "a" "d" "b:c"
    = (None, Some (errors_New "not found"))
  ∧ GetFile (AddFileContents m "a:b" "c" "d" (bytes_of "hello"))
      context_Background "a" "d" "b:c"
    = (Some {| scm.Data := bytes_of "hello";
               scm.Sha := "aaf4c61ddcc5e8a2dabede0f3b482cd9aea9434d" |}, None).
Proof.
  cbv zeta. split; [discriminate|]. split; [reflexivity|].
  split; vm_compute; reflexivity.
Qed.

(** C2, amended. Every table is looked up under the components joined
    by ":", matched as a whole string: no partial or prefix matching.
    For two different tuples whose components before the last hold no
    ":", the keys differ, so on any fixture seeding or recording under
    the first tuple leaves every lookup of the second as it was: a file
    seeded under the first does not make [GetFile] succeed for the
    second, and likewise for updated files and created branches, keyed
    by three components, and for branch heads, keyed by the pair
    (repository, branch), where only the repositories need to be free of
    ":". The record of pull requests is keyed by the repository alone. *)
Theorem key_exact_match (m : MockClient) (ctx : Context)
    (a1 b1 c1 a2 b2 c2 : string) :
  (no_sep a1 = true → no_sep b1 = true → no_sep a2 = true → no_sep b2 = true →
   (a1, b1, c1) ≠ (a2, b2, c2) →
   key [a1; b1; c1] ≠ key [a2; b2; c2]
   ∧ (∀ body, GetFile (AddFileContents m a1 b1 c1 body) ctx a2 c2 b2
              = GetFile m ctx a2 c2 b2)
   ∧ (∀ message previousSHA signature content,
         GetUpdatedContents
           (fst (UpdateFile m ctx a1 c1 b1 message previousSHA signature content))
           a2 b2 c2
         = GetUpdatedContents m a2 b2 c2)
   ∧ (AssertBranchCreated (fst (CreateBranch m ctx a1 b1 c1)) a2 b2 c2
      = AssertBranchCreated m a2 b2 c2
      ∧ RefuteBranchCreated (fst (CreateBranch m ctx a1 b1 c1)) a2 b2 c2
        = RefuteBranchCreated m a2 b2 c2))
  ∧ (no_sep a1 = true → no_sep a2 = true → (a1, b1) ≠ (a2, b2) →
     key [a1; b1] ≠ key [a2; b2]
     ∧ ∀ sha, GetBranchHead (AddBranchHead m a1 b1 sha) ctx a2 b2
              = GetBranchHead m ctx a2 b2)
  ∧ (∀ inp, a1 ≠ a2 →
            pullRequestsOf (fst (CreatePullRequest m ctx a1 inp)) a2
            = pullRequestsOf m a2).
Proof.
  split; [|split].
  - intros Ha1 Hb1 Ha2 Hb2 Hne.
    assert (Hk : key [a1; b1; c1] ≠ key [a2; b2; c2]).
    { intros Heq. apply Hne.
      destruct (key3_inj _ _ _ _ _ _ Ha1 Hb1 Ha2 Hb2 Heq) as (-> & -> & ->).
      reflexivity. }
    split; [exact Hk|]. destruct m; unfold_ops; cbn [fst snd files GetFileErr
      updatedFiles UpdateFileErr createdBranches CreateBranchErr
      set_files set_updatedFiles set_createdBranches].
    split; [|split].
    + intros body. rewrite lookup_insert_ne by exact Hk. reflexivity.
    + intros. destruct UpdateFileErr0; cbn; [reflexivity|].
      rewrite lookup_insert_ne by exact Hk. reflexivity.
    + destruct CreateBranchErr0; cbn; [split; reflexivity|].
      rewrite lookup_insert_ne by exact Hk. split; reflexivity.
  - intros Ha1 Ha2 Hne2.
    assert (Hk2 : key [a1; b1] ≠ key [a2; b2]).
    { intros Heq. apply Hne2.
      destruct (key2_inj _ _ _ _ Ha1 Ha2 Heq) as (-> & ->). reflexivity. }
    split; [exact Hk2|]. intros sha. unfold GetBranchHead, AddBranchHead.
    destruct m. cbn [branchHeads set_branchHeads].
    rewrite lookup_insert_ne by exact Hk2. reflexivity.
  - intros inp Hr. unfold CreatePullRequest, pullRequestsOf.
    destruct (CreatePullRequestErr m); [reflexivity|].
    destruct m. cbn [fst createdPullRequests set_createdPullRequests].
    rewrite lookup_insert_ne by exact Hr. reflexivity.
Qed.

Lemma key_exact_match_witness :
  let m := New (testing_T_named "T") in
  GetFile (AddFileContents m "r" "a.txt" "main" (bytes_of "hello"))
          context_Background "r" "main" "b.txt"
  = GetFile m context_Background "r" "main" "b.txt"
  ∧ GetBranchHead (AddBranchHead m "r" "feat:x" "abc") context_Background
      "r" "feat:y"
    = GetBranchHead m context_Background "r" "feat:y".
Proof.
  intros m. split.
  - refine (proj1 (proj2
      (proj1 (key_exact_match m context_Background
                "r" "a.txt" "main" "r" "b.txt" "main")
         eq_refl eq_refl eq_refl eq_refl _)) (bytes_of "hello")).
    discriminate.
  - refine (proj2
      (proj1 (proj2 (key_exact_match m context_Background
                       "r" "feat:x" "" "r" "feat:y" ""))
         eq_refl eq_refl _) "abc").
    discriminate.
Defined.

(** ** Sequences of calls *)

Lemma exec_app (m : MockClient) (cs1 cs2 : list call) :
  exec m (cs1 ++ cs2) = exec (exec m cs1) cs2.
Proof. revert m. induction cs1 as [|c cs1 IH]; intros m; cbn; auto. Qed.

(** Only [AddFileContents] writes the table of stored files. *)
Lemma step_files (m : MockClient) (c : call) :
  files (fst (step m c))
  = match c with
    | CallAddFileContents repo path ref body =>
        <[key [repo; path; ref] := body]> (files m)
    | _ => files m
    end.
Proof. by_step m c; reflexivity. Qed.

Lemma files_exec_other (k : string) (m : MockClient) (cs : list call) :
  (∀ r p f c, In (CallAddFileContents r p f c) cs → key [r; p; f] ≠ k) →
  files (exec m cs) !! k = files m !! k.
Proof.
  revert m. induction cs as [|c cs IH]; intros m Hcs; [reflexivity|].
  cbn [exec]. rewrite IH by (intros; eapply Hcs; right; eassumption).
  rewrite step_files. destruct c; try reflexivity.
  apply lookup_insert_ne. eapply Hcs. left. reflexivity.
Qed.

Lemma GetFile_of_table (m : MockClient) (ctx : Context) (repo ref path : string) :
  GetFileErr m = None →
  GetFile m ctx repo ref path
  = match files m !! key [repo; path; ref] with
    | Some b => (Some {| scm.Data := b; scm.Sha := bytesSha1 b |}, None)
    | None => (None, Some (errors_New "not found"))
    end.
Proof. unfold GetFile. intros ->. reflexivity. Qed.

(** C1, as stated, fails in two ways. A tuple that was never seeded is
    found when a seeded tuple joins to the same key; and a seeded tuple
    is not returned while the [GetFile] override is set. *)
Lemma GetFile_counterexample :
  let T := testing_T_named "T" in
  let hello := bytes_of "hello" in
  ("a", "b:c", "d") ≠ ("a:b", "c", "d")
  ∧ GetFile (exec (New T) [CallAddFileContents "a:b" "c" "d" hello])
      context_Background "a" "d" "b:c"
    = (Some {| scm.Data := hello;
               scm.Sha := "aaf4c61ddcc5e8a2dabede0f3b482cd9aea9434d" |}, None)
  ∧ GetFile (exec (New T) [CallAddFileContents "r" "a.txt" "main" hello;
                           AssignGetFileErr (Some (errors_New "outage"))])
      context_Background "r" "main" "a.txt"
    = (Some {| scm.Data := None; scm.Sha := "" |}, Some (errors_New "outage")).
Proof.
  cbv zeta. split; [discriminate|]. split; vm_compute; reflexivity.
Qed.

(** C1, amended. On the fixture reached from [New] by any sequence of
    calls, with no [GetFile] override set, [GetFile(repository,
    reference, path)] looks up the key "repository:path:reference". It
    returns the content of the last [AddFileContents] whose tuple joins
    to that key, as it was given, with the revision identifier computed
    from those bytes at the call: the 40 lowercase hexadecimal digits of
    their 20-byte SHA-1 digest. When no [AddFileContents] of the
    sequence joins to that key, it fails with "not found". *)
Theorem GetFile_seeded (t0 : testing_T) (cs : list call) (ctx : Context)
    (repo ref path : string) :
  GetFileErr (exec (New t0) cs) = None →
  (∀ before r p f c later,
      cs = before ++ CallAddFileContents r p f c :: later →
      key [r; p; f] = key [repo; path; ref] →
      (∀ r' p' f' c', In (CallAddFileContents r' p' f' c') later →
                      key [r'; p'; f'] ≠ key [repo; path; ref]) →
      GetFile (exec (New t0) cs) ctx repo ref path
      = (Some {| scm.Data := c;
                 scm.Sha := Sprintf_x (sha1.Sum (slice_bytes c)) |}, None)
      ∧ length (sha1.Sum (slice_bytes c)) = 20
      ∧ String.length (Sprintf_x (sha1.Sum (slice_bytes c))) = 40
      ∧ forallb lower_hex
          (list_ascii_of_string (Sprintf_x (sha1.Sum (slice_bytes c)))) = true)
  ∧ ((∀ r p f c, In (CallAddFileContents r p f c) cs →
                 key [r; p; f] ≠ key [repo; path; ref]) →
     GetFile (exec (New t0) cs) ctx repo ref path
     = (None, Some (errors_New "not found"))).
Proof.
  intros Herr. rewrite (GetFile_of_table _ ctx repo ref path Herr). split.
  - intros before r p f c later -> Hkey Hlater.
    rewrite exec_app. cbn [exec].
    rewrite (files_exec_other _ _ later Hlater), step_files, Hkey,
      lookup_insert_eq.
    split; [reflexivity|]. split; [apply Sum_length|].
    apply (bytesSha1_shape c).
  - intros Hnone. rewrite (files_exec_other _ _ cs Hnone). reflexivity.
Qed.

Lemma GetFile_seeded_witness :
  GetFile (exec (New (testing_T_named "T"))
             [CallAddFileContents "r" "a.txt" "main" (bytes_of "hello")])
          context_Background "r" "main" "a.txt"
  = (Some {| scm.Data := bytes_of "hello";
             scm.Sha := Sprintf_x (sha1.Sum (slice_bytes (bytes_of "hello"))) |},
     None).
Proof.
  refine (proj1 (proj1
    (GetFile_seeded (testing_T_named "T")
       [CallAddFileContents "r" "a.txt" "main" (bytes_of "hello")]
       context_Background "r" "main" "a.txt" eq_refl)
    [] "r" "a.txt" "main" (bytes_of "hello") [] eq_refl eq_refl _)).
  intros r' p' f' c' [].
Defined.

(** ** Read fixtures and write observations *)

(** The write path leaves what the read path looks at alone. *)
Lemma step_write_frame (m : MockClient) (c : call) :
  is_write c = true →
  files (fst (step m c)) = files m
  ∧ GetFileErr (fst (step m c)) = GetFileErr m
  ∧ branchHeads (fst (step m c)) = branchHeads m.
Proof. intros Hw. by_step m c; try discriminate Hw; auto. Qed.

(** Seeding leaves what the write path records alone. *)
Lemma step_seed_frame (m : MockClient) (c : call) :
  is_seed c = true →
  updatedFiles (fst (step m c)) = updatedFiles m
  ∧ createdBranches (fst (step m c)) = createdBranches m
  ∧ createdPullRequests (fst (step m c)) = createdPullRequests m.
Proof. intros Hs. by_step m c; try discriminate Hs; auto. Qed.

Lemma exec_write_frame (m : MockClient) (cs : list call) :
  forallb is_write cs = true →
  files (exec m cs) = files m
  ∧ GetFileErr (exec m cs) = GetFileErr m
  ∧ branchHeads (exec m cs) = branchHeads m.
Proof.
  revert m. induction cs as [|c cs IH]; intros m Hcs; [auto|].
  cbn in Hcs. apply andb_prop in Hcs as [Hc Hcs]. cbn [exec].
  destruct (IH (fst (step m c)) Hcs) as (-> & -> & ->).
  apply step_write_frame, Hc.
Qed.

Lemma exec_seed_frame (m : MockClient) (cs : list call) :
  forallb is_seed cs = true →
  updatedFiles (exec m cs) = updatedFiles m
  ∧ createdBranches (exec m cs) = createdBranches m
  ∧ createdPullRequests (exec m cs) = createdPullRequests m.
Proof.
  revert m. induction cs as [|c cs IH]; intros m Hcs; [auto|].
  cbn in Hcs. apply andb_prop in Hcs as [Hc Hcs]. cbn [exec].
  destruct (IH (fst (step m c)) Hcs) as (-> & -> & ->).
  apply step_seed_frame, Hc.
Qed.

(** C8. Seeded state and recorded writes live in different tables. On
    any fixture, a sequence made of [UpdateFile], [DeleteFile],
    [CreateBranch] and [CreatePullRequest] calls leaves the result of
    every [GetFile] and [GetBranchHead] call as it was; and a sequence of
    [AddFileContents] and [AddBranchHead] calls leaves
    [GetUpdatedContents] and every branch, pull-request and
    no-interaction assertion as it was. *)
Theorem read_write_tables_disjoint (m : MockClient) (cs : list call) :
  (forallb is_write cs = true →
   ∀ ctx repo ref path branch,
     GetFile (exec m cs) ctx repo ref path = GetFile m ctx repo ref path
     ∧ GetBranchHead (exec m cs) ctx repo branch = GetBranchHead m ctx repo branch)
  ∧ (forallb is_seed cs = true →
     ∀ repo path ref branch sha inp,
       GetUpdatedContents (exec m cs) repo path ref
       = GetUpdatedContents m repo path ref
       ∧ AssertBranchCreated (exec m cs) repo branch sha
         = AssertBranchCreated m repo branch sha
       ∧ RefuteBranchCreated (exec m cs) repo branch sha
         = RefuteBranchCreated m repo branch sha
       ∧ AssertPullRequestCreated (exec m cs) repo inp
         = AssertPullRequestCreated m repo inp
       ∧ RefutePullRequestCreated (exec m cs) repo inp
         = RefutePullRequestCreated m repo inp
       ∧ AssertNoBranchesCreated (exec m cs) = AssertNoBranchesCreated m
       ∧ AssertNoPullRequestsCreated (exec m cs) = AssertNoPullRequestsCreated m
       ∧ AssertNoInteractions (exec m cs) = AssertNoInteractions m).
Proof.
  split; intros Hcs; intros.
  - destruct (exec_write_frame m cs Hcs) as (Hf & He & Hb).
    unfold GetFile, GetBranchHead. rewrite Hf, He, Hb. auto.
  - destruct (exec_seed_frame m cs Hcs) as (Hu & Hb & Hp).
    unfold GetUpdatedContents, AssertBranchCreated, RefuteBranchCreated,
      AssertPullRequestCreated, RefutePullRequestCreated, pullRequestsOf,
      AssertNoBranchesCreated, AssertNoPullRequestsCreated,
      AssertNoInteractions.
    rewrite Hu, Hb, Hp. repeat split; reflexivity.
Qed.

Lemma read_write_tables_disjoint_witness :
  let T := testing_T_named "T" in
  let sig := {| scm.Name := "n"; scm.Email := "e" |} in
  let m := AddFileContents (New T) "r" "a.txt" "main" (bytes_of "hello") in
  let writes :=
    [CallUpdateFile context_Background "r" "main" "a.txt" "msg" "abc" sig
       (bytes_of "world");
     CallCreateBranch context_Background "r" "main" "abc";
     CallCreatePullRequest context_Background "r" None] in
  let seeds :=
    [CallAddFileContents "r" "a.txt" "feature" (bytes_of "x");
     CallAddBranchHead "r" "feature" "abc"] in
  GetFile (exec m writes) context_Background "r" "main" "a.txt"
  = GetFile m context_Background "r" "main" "a.txt"
  ∧ GetUpdatedContents (exec (exec m writes) seeds) "r" "a.txt" "main"
    = GetUpdatedContents (exec m writes) "r" "a.txt" "main".
Proof.
  intros T sig m writes seeds. split.
  - exact (proj1 (proj1 (read_write_tables_disjoint m writes) eq_refl
                    context_Background "r" "main" "a.txt" "main")).
  - exact (proj1 (proj2 (read_write_tables_disjoint (exec m writes) seeds) eq_refl
                    "r" "a.txt" "main" "feature" "abc" None)).
Defined.

(** ** Interactions *)

Lemma AssertNoInteractions_untouched (m : MockClient) :
  AssertNoInteractions m = Pass ↔ untouched m.
Proof.
  unfold AssertNoInteractions, untouched.
  rewrite <- !map_size_empty_iff.
  destruct (size (updatedFiles m)); cbn; [|split; [discriminate | lia]].
  destruct (size (createdBranches m)); cbn; [|split; [discriminate | lia]].
  destruct (size (createdPullRequests m)); cbn; [|split; [discriminate | lia]].
  tauto.
Qed.

(** A call leaves the observation tables empty exactly when they were
    empty and the call was not a successful write. *)
Lemma step_untouched (m : MockClient) (c : call) :
  untouched (fst (step m c))
  ↔ untouched m ∧ wrote (c, snd (step m c)) = false.
Proof.
  unfold untouched.
  by_step m c;
    (split;
     [ intros (H1 & H2 & H3);
       try (exfalso;
            match goal with
            | H : <[_ := _]> _ = ∅ |- _ => exact (insert_non_empty _ _ _ H)
            end);
       auto
     | intros ((H1 & H2 & H3) & Hw); try discriminate Hw; auto ]).
Qed.

Lemma exec_untouched (m : MockClient) (cs : list call) :
  untouched (exec m cs) ↔ untouched m ∧ existsb wrote (trace m cs) = false.
Proof.
  revert m. induction cs as [|c cs IH]; intros m; cbn [exec trace existsb].
  - tauto.
  - rewrite IH, step_untouched, orb_false_iff. tauto.
Qed.

(** C7, as stated, fails for a call made while its override is set: the
    [UpdateFile] call below has occurred and returned the injected error,
    nothing was recorded, and [AssertNoInteractions] still passes. *)
Lemma AssertNoInteractions_counterexample :
  let T := testing_T_named "T" in
  let sig := {| scm.Name := "n"; scm.Email := "e" |} in
  let cs := [AssignUpdateFileErr (Some (errors_New "outage"));
             CallUpdateFile context_Background "r" "feature" "a.txt" "msg"
               "abc" sig (bytes_of "world")] in
  map snd (trace (New T) cs) = [RetNothing; RetError (Some (errors_New "outage"))]
  ∧ AssertNoInteractions (exec (New T) cs) = Pass.
Proof. vm_compute. split; reflexivity. Qed.

(** C7, amended. [AssertNoInteractions] passes on a fresh fixture. After
    any sequence of calls on a fresh fixture it passes exactly when no
    [UpdateFile], [CreateBranch] or [CreatePullRequest] call of the
    sequence returned without error: one such call is enough to fail the
    test from then on, while seeding calls, reads, [DeleteFile],
    assignments to the override fields and write calls answered with an
    injected error never make it fail. *)
Theorem AssertNoInteractions_iff_no_write (t0 : testing_T) (cs : list call) :
  AssertNoInteractions (New t0) = Pass
  ∧ (AssertNoInteractions (exec (New t0) cs) = Pass
     ↔ existsb wrote (trace (New t0) cs) = false)
  ∧ (forallb (λ c, negb (is_write c)) cs = true →
     AssertNoInteractions (exec (New t0) cs) = Pass).
Proof.
  assert (Hfresh : untouched (New t0)) by (repeat split; reflexivity).
  assert (Hiff : AssertNoInteractions (exec (New t0) cs) = Pass
                 ↔ existsb wrote (trace (New t0) cs) = false).
  { rewrite AssertNoInteractions_untouched, exec_untouched. tauto. }
  split; [apply AssertNoInteractions_untouched, Hfresh|]. split; [exact Hiff|].
  intros Hcs. apply Hiff. clear Hiff Hfresh. generalize (New t0) as m.
  induction cs as [|c cs IH]; intros m; [reflexivity|].
  cbn in Hcs. apply andb_prop in Hcs as [Hc Hcs].
  cbn [trace existsb]. rewrite (IH Hcs), orb_false_r.
  destruct c; try discriminate Hc; reflexivity.
Qed.

Lemma AssertNoInteractions_iff_no_write_witness :
  let T := testing_T_named "T" in
  let cs := [CallAddFileContents "r" "a.txt" "main" (bytes_of "hello");
             CallAddBranchHead "r" "main" "abc";
             CallGetFile context_Background "r" "main" "a.txt";
             CallGetBranchHead context_Background "r" "main"] in
  AssertNoInteractions (exec (New T) cs) = Pass.
Proof.
  intros T cs.
  exact (proj2 (proj2 (AssertNoInteractions_iff_no_write T cs)) eq_refl).
Defined.

(** ** Pull requests *)

(** The digits printed for a number read back as that number. *)
Lemma Sprintf_d_parse (n : Z) :
  option_map Z.of_int (NilZero.int_of_string (Sprintf_d n)) = Some n.
Proof.
  unfold Sprintf_d. rewrite NilZero.isi.
  - cbn [option_map]. rewrite DecimalZ.of_to. reflexivity.
  - destruct n; cbn; intros [= H].
    exact (DecimalPos.Unsigned.to_uint_nonnil _ H).
  - destruct n; cbn; intros [= H].
    exact (DecimalPos.Unsigned.to_uint_nonnil _ H).
Qed.

(** What one call does to the inputs recorded for [repo]: nothing, or it
    is a successful [CreatePullRequest] on [repo], which appends its
    input and returns the new length and the link made of it. *)
Lemma step_created (repo : string) (m : MockClient) (c : call) :
  (created repo (c, snd (step m c)) = None
   ∧ pullRequestsOf (fst (step m c)) repo = pullRequestsOf m repo)
  ∨ (∃ inp pr,
        created repo (c, snd (step m c)) = Some (inp, pr)
        ∧ pullRequestsOf (fst (step m c)) repo = pullRequestsOf m repo ++ [inp]
        ∧ scm.Number pr = Z.of_nat (S (length (pullRequestsOf m repo)))
        ∧ scm.Link pr
          = "https://example.com/pull-request/" +:+ Sprintf_d (scm.Number pr)).
Proof.
  destruct c as [| | |ctx r inp| | | | | | | |].
  4: { unfold step, CreatePullRequest, created, pullRequestsOf.
       destruct (CreatePullRequestErr m) eqn:Herr; cbn [fst snd].
       { left. split; reflexivity. }
       destruct (decide (r = repo)) as [->|Hne].
       - right. eexists _, _. split; [reflexivity|]. cbn.
         rewrite lookup_insert_eq, length_app, Nat.add_1_r. auto.
       - left. split; [reflexivity|]. cbn.
         rewrite lookup_insert_ne by exact Hne. reflexivity. }
  all: left; split; [reflexivity|]; destruct m; cbn; unfold_ops; cbn;
    repeat (destruct_scrutinee; cbn); reflexivity.
Qed.

Lemma exec_created (repo : string) (m : MockClient) (cs : list call) :
  let prs := omap (created repo) (trace m cs) in
  pullRequestsOf (exec m cs) repo = pullRequestsOf m repo ++ map fst prs
  ∧ map (λ p, scm.Number (snd p)) prs
    = map Z.of_nat (seq (S (length (pullRequestsOf m repo))) (length prs))
  ∧ Forall (λ p, scm.Link (snd p)
                 = "https://example.com/pull-request/"
                   +:+ Sprintf_d (scm.Number (snd p))) prs.
Proof.
  cbv zeta. revert m. induction cs as [|c cs IH]; intros m.
  - cbn. rewrite app_nil_r. auto.
  - cbn [exec trace]. specialize (IH (fst (step m c))).
    destruct IH as (IHl & IHn & IHk).
    change (omap (created repo) ((c, snd (step m c)) :: trace (fst (step m c)) cs))
      with (match created repo (c, snd (step m c)) with
            | Some y => y :: omap (created repo) (trace (fst (step m c)) cs)
            | None => omap (created repo) (trace (fst (step m c)) cs)
            end).
    destruct (step_created repo m c) as [[-> Hsame] | (inp & pr & -> & Happ & Hn & Hk)].
    + rewrite Hsame in IHl, IHn. auto.
    + rewrite Happ in IHl, IHn. rewrite length_app, Nat.add_1_r in IHn.
      cbn [map fst snd length seq]. rewrite IHl, <- app_assoc, IHn, Hn.
      split; [reflexivity|]. split; [reflexivity|].
      constructor; [exact Hk | exact IHk].
Qed.

Lemma existsb_DeepEqual (inp : option scm.PullRequestInput)
    (l : list (option scm.PullRequestInput)) :
  existsb (DeepEqual inp) l = true ↔ In inp l.
Proof.
  rewrite existsb_exists. unfold DeepEqual. split.
  - intros (x & Hx & Heq). apply bool_decide_eq_true in Heq. subst. exact Hx.
  - intros Hin. exists inp. split; [exact Hin|]. apply bool_decide_eq_true.
    reflexivity.
Qed.

(** What one call does to the inputs recorded for [repo], read off its
    reply: a [CreatePullRequest] on [repo] that returns without error
    returns a pull request, numbered by the new length of the record,
    and has appended its input; any other call leaves the record alone. *)
Lemma step_submitted (repo : string) (m : MockClient) (c : call) :
  (submitted repo (c, snd (step m c)) = None
   ∧ pullRequestsOf (fst (step m c)) repo = pullRequestsOf m repo)
  ∨ (∃ inp,
        submitted repo (c, snd (step m c))
        = Some (inp,
                Some {| scm.Number :=
                          Z.of_nat (length (pullRequestsOf m repo ++ [inp]));
                        scm.Link :=
                          "https://example.com/pull-request/"
                          +:+ Sprintf_d
                                (Z.of_nat (length (pullRequestsOf m repo ++ [inp]))) |})
        ∧ pullRequestsOf (fst (step m c)) repo = pullRequestsOf m repo ++ [inp]).
Proof.
  destruct c as [| | |ctx r inp| | | | | | | |].
  4: { unfold step, CreatePullRequest, submitted, pullRequestsOf.
       destruct (CreatePullRequestErr m) eqn:Herr; cbn [fst snd].
       { left. split; reflexivity. }
       destruct (decide (r = repo)) as [->|Hne].
       - right. exists inp. split; [reflexivity|].
         cbn [createdPullRequests set_createdPullRequests].
         rewrite lookup_insert_eq. reflexivity.
       - left. split; [reflexivity|].
         cbn [createdPullRequests set_createdPullRequests].
         rewrite lookup_insert_ne by exact Hne. reflexivity. }
  all: left; split; [reflexivity|]; destruct m; cbn; unfold_ops; cbn;
    repeat (destruct_scrutinee; cbn); reflexivity.
Qed.

Lemma exec_submitted (repo : string) (m : MockClient) (cs : list call) :
  let calls := omap (submitted repo) (trace m cs) in
  pullRequestsOf (exec m cs) repo = pullRequestsOf m repo ++ map fst calls
  ∧ map snd calls
    = map (λ k, Some {| scm.Number := Z.of_nat k;
                        scm.Link := "https://example.com/pull-request/"
                                    +:+ Sprintf_d (Z.of_nat k) |})
        (seq (S (length (pullRequestsOf m repo))) (length calls)).
Proof.
  cbv zeta. revert m. induction cs as [|c cs IH]; intros m.
  - cbn. rewrite app_nil_r. auto.
  - cbn [exec trace]. specialize (IH (fst (step m c))).
    destruct IH as (IHl & IHn).
    change (omap (submitted repo)
              ((c, snd (step m c)) :: trace (fst (step m c)) cs))
      with (match submitted repo (c, snd (step m c)) with
            | Some y => y :: omap (submitted repo) (trace (fst (step m c)) cs)
            | None => omap (submitted repo) (trace (fst (step m c)) cs)
            end).
    destruct (step_submitted repo m c) as [[-> Hsame] | (inp & -> & Happ)].
    + rewrite Hsame in IHl, IHn. auto.
    + rewrite Happ in IHl, IHn. rewrite length_app, Nat.add_1_r in IHn.
      cbn [map fst snd length seq]. rewrite IHl, <- app_assoc, IHn.
      rewrite length_app, Nat.add_1_r. split; reflexivity.
Qed.

(** C5, as stated, fails for an input submitted while the
    [CreatePullRequest] override is set: the call returns the injected
    error, nothing is recorded, and [AssertPullRequestCreated] fails the
    test for an input equal to the one that was submitted. *)
Lemma AssertPullRequestCreated_counterexample :
  let T := testing_T_named "T" in
  let pr := Some {| scm.Title := "t"; scm.Head := "feature";
                    scm.Base := "main"; scm.Body := "" |} in
  let cs := [AssignCreatePullRequestErr (Some (errors_New "outage"));
             CallCreatePullRequest context_Background "r" pr] in
  map snd (trace (New T) cs)
  = [RetNothing; RetPullRequest None (Some (errors_New "outage"))]
  ∧ AssertPullRequestCreated (exec (New T) cs) "r" pr
    = Fatalf "pullrequest not created in repo %s" [Str "r"].
Proof. vm_compute. split; reflexivity. Qed.

(** C5, amended. With no [CreatePullRequest] override set a call returns
    a pull request and no error. On a fixture reached from [New] by any
    sequence of calls, the [CreatePullRequest] calls on one repository
    that returned without error each returned a pull request, and these
    carry, in call order, the numbers 1, 2, 3, ..., each with the link
    "https://example.com/pull-request/" followed by digits that read as
    that number in decimal. The inputs recorded for the repository are
    the inputs of those calls in the same order, so each number is the
    length of the record just after its input was appended; and
    [AssertPullRequestCreated] passes exactly for an input equal to the
    input of one of those calls: an input submitted in a call answered
    with an injected error is not among them. *)
Theorem CreatePullRequest_numbers (t0 : testing_T) (cs : list call)
    (repo : string) :
  let calls := omap (submitted repo) (trace (New t0) cs) in
  map snd calls
  = map (λ k, Some {| scm.Number := Z.of_nat k;
                      scm.Link := "https://example.com/pull-request/"
                                  +:+ Sprintf_d (Z.of_nat k) |})
      (seq 1 (length calls))
  ∧ Forall (λ c, ∃ pr digits,
                snd c = Some pr
                ∧ scm.Link pr = "https://example.com/pull-request/" +:+ digits
                ∧ option_map Z.of_int (NilZero.int_of_string digits)
                  = Some (scm.Number pr)) calls
  ∧ pullRequestsOf (exec (New t0) cs) repo = map fst calls
  ∧ (∀ inp, AssertPullRequestCreated (exec (New t0) cs) repo inp = Pass
            ↔ In inp (map fst calls))
  ∧ (∀ m ctx inp,
        CreatePullRequestErr m = None →
        ∃ pr, snd (CreatePullRequest m ctx repo inp) = (Some pr, None)).
Proof.
  cbv zeta. destruct (exec_submitted repo (New t0) cs) as (Hl & Hn).
  change (pullRequestsOf (New t0) repo) with (@nil (option scm.PullRequestInput))
    in Hl, Hn.
  cbn [app length] in Hl, Hn.
  split; [exact Hn|]. split.
  { revert Hn. generalize (seq 1 (length (omap (submitted repo) (trace (New t0) cs)))).
    generalize (omap (submitted repo) (trace (New t0) cs)).
    induction l as [|c l IH]; intros [|k ks] Hn; try discriminate Hn;
      constructor.
    - cbn [map] in Hn. injection Hn as Hc Htl.
      eexists _, (Sprintf_d (Z.of_nat k)). split; [exact Hc|].
      split; [reflexivity|]. apply Sprintf_d_parse.
    - cbn [map] in Hn. injection Hn as Hc Htl. exact (IH ks Htl). }
  split; [exact Hl|]. split.
  - intros inp. unfold AssertPullRequestCreated. rewrite Hl.
    rewrite <- existsb_DeepEqual.
    destruct (existsb (DeepEqual inp) _); split; intros H;
      try reflexivity; discriminate H.
  - intros m ctx inp Hnone. unfold CreatePullRequest. rewrite Hnone.
    eexists. reflexivity.
Qed.

Lemma CreatePullRequest_numbers_witness :
  ∃ pr, snd (CreatePullRequest (New (testing_T_named "T")) context_Background
               "r" None)
        = (Some pr, None).
Proof.
  exact (proj2 (proj2 (proj2 (proj2
           (CreatePullRequest_numbers (testing_T_named "T") [] "r"))))
           (New (testing_T_named "T")) context_Background None eq_refl).
Defined.

(** Three pull requests on one repository, with one on another in
    between and one refused by the override. *)
Example CreatePullRequest_three :
  let pr title := Some {| scm.Title := title; scm.Head := "feature";
                          scm.Base := "main"; scm.Body := "" |} in
  let cs := [CallCreatePullRequest context_Background "r" (pr "one");
             CallCreatePullRequest context_Background "other" (pr "x");
             CallCreatePullRequest context_Background "r" (pr "two");
             AssignCreatePullRequestErr (Some (errors_New "outage"));
             CallCreatePullRequest context_Background "r" (pr "refused");
             AssignCreatePullRequestErr None;
             CallCreatePullRequest context_Background "r" None] in
  map snd (omap (created "r") (trace (New (testing_T_named "T")) cs))
  = [ {| scm.Number := 1; scm.Link := "https://example.com/pull-request/1" |};
      {| scm.Number := 2; scm.Link := "https://example.com/pull-request/2" |};
      {| scm.Number := 3; scm.Link := "https://example.com/pull-request/3" |} ].
Proof. vm_compute. reflexivity. Qed.

(** * Further properties of the fixture *)

(** ** Branch heads *)

(** Only [AddBranchHead] writes the table of branch heads. *)
Lemma step_branchHeads (m : MockClient) (c : call) :
  branchHeads (fst (step m c))
  = match c with
    | CallAddBranchHead repo branch sha =>
        <[key [repo; branch] := sha]> (branchHeads m)
    | _ => branchHeads m
    end.
Proof. by_step m c; reflexivity. Qed.

Lemma branchHeads_exec_other (k : string) (m : MockClient) (cs : list call) :
  (∀ r b sha, In (CallAddBranchHead r b sha) cs → key [r; b] ≠ k) →
  branchHeads (exec m cs) !! k = branchHeads m !! k.
Proof.
  revert m. induction cs as [|c cs IH]; intros m Hcs; [reflexivity|].
  cbn [exec]. rewrite IH by (intros; eapply Hcs; right; eassumption).
  rewrite step_branchHeads. destruct c; try reflexivity.
  apply lookup_insert_ne. eapply Hcs. left. reflexivity.
Qed.

(** X1. On the fixture reached from [New] by any sequence of calls,
    whatever the override fields hold, [GetBranchHead(repository,
    branch)] returns without error the revision of the last
    [AddBranchHead] whose pair joins to the key "repository:branch", and
    returns the empty string with "not found" when no [AddBranchHead] of
    the sequence joins to that key. *)
Theorem GetBranchHead_seeded (t0 : testing_T) (cs : list call) (ctx : Context)
    (repo branch : string) :
  (∀ before r b sha later,
      cs = before ++ CallAddBranchHead r b sha :: later →
      key [r; b] = key [repo; branch] →
      (∀ r' b' sha', In (CallAddBranchHead r' b' sha') later →
                     key [r'; b'] ≠ key [repo; branch]) →
      GetBranchHead (exec (New t0) cs) ctx repo branch = (sha, None))
  ∧ ((∀ r b sha, In (CallAddBranchHead r b sha) cs →
                 key [r; b] ≠ key [repo; branch]) →
     GetBranchHead (exec (New t0) cs) ctx repo branch
     = ("", Some (errors_New "not found"))).
Proof.
  unfold GetBranchHead. split.
  - intros before r b sha later -> Hkey Hlater.
    rewrite exec_app. cbn [exec].
    rewrite (branchHeads_exec_other _ _ later Hlater), step_branchHeads, Hkey,
      lookup_insert_eq. reflexivity.
  - intros Hnone. rewrite (branchHeads_exec_other _ _ cs Hnone). reflexivity.
Qed.

Lemma GetBranchHead_seeded_witness :
  let cs := [CallAddBranchHead "r" "main" "abc";
             AssignGetFileErr (Some (errors_New "outage"));
             CallAddBranchHead "r" "main" "def";
             CallAddBranchHead "r" "feature" "123"] in
  GetBranchHead (exec (New (testing_T_named "T")) cs) context_Background "r" "main"
  = ("def", None)
  ∧ GetBranchHead (exec (New (testing_T_named "T")) cs) context_Background
      "r" "other"
    = ("", Some (errors_New "not found")).
Proof.
  intros cs. split.
  - refine (proj1 (GetBranchHead_seeded (testing_T_named "T") cs
                     context_Background "r" "main")
              [CallAddBranchHead "r" "main" "abc";
               AssignGetFileErr (Some (errors_New "outage"))]
              "r" "main" "def" [CallAddBranchHead "r" "feature" "123"]
              eq_refl eq_refl _).
    intros r' b' sha' [Heq|[]]. injection Heq as <- <- <-. discriminate.
  - refine (proj2 (GetBranchHead_seeded (testing_T_named "T") cs
                     context_Background "r" "other") _).
    intros r b sha [Heq|[Heq|[Heq|[Heq|[]]]]];
      try discriminate Heq; injection Heq as <- <- <-; discriminate.
Defined.

(** ** Updated files *)

(** Only a successful [UpdateFile] writes the table of updated files. *)
Lemma step_updatedFiles (m : MockClient) (c : call) :
  updatedFiles (fst (step m c))
  = match updated (c, snd (step m c)) with
    | Some (k, content) => <[k := content]> (updatedFiles m)
    | None => updatedFiles m
    end.
Proof. by_step m c; reflexivity. Qed.

Lemma updatedFiles_exec (k : string) (m : MockClient) (cs : list call) :
  updatedFiles (exec m cs) !! k
  = match last_written k (trace m cs) with
    | Some c => Some c
    | None => updatedFiles m !! k
    end.
Proof.
  revert m. induction cs as [|c cs IH]; intros m; [reflexivity|].
  cbn [exec trace last_written]. rewrite IH.
  destruct (last_written k (trace (fst (step m c)) cs)); [reflexivity|].
  rewrite step_updatedFiles.
  destruct (updated (c, snd (step m c))) as [[k' content]|]; [|reflexivity].
  destruct (decide (k' = k)) as [->|Hne].
  - apply lookup_insert_eq.
  - apply lookup_insert_ne, Hne.
Qed.

(** X2. On the fixture reached from [New] by any sequence of calls,
    [GetUpdatedContents(repository, path, branch)] returns the content of
    the last [UpdateFile] call that returned without error and whose
    arguments join to the key "repository:path:branch", and the nil
    slice when there is no such call: an [UpdateFile] answered with an
    injected error leaves no content behind. *)
Theorem GetUpdatedContents_last_written (t0 : testing_T) (cs : list call)
    (repo path ref : string) :
  GetUpdatedContents (exec (New t0) cs) repo path ref
  = match last_written (key [repo; path; ref]) (trace (New t0) cs) with
    | Some c => c
    | None => None
    end.
Proof.
  unfold GetUpdatedContents. rewrite updatedFiles_exec.
  destruct (last_written _ _); reflexivity.
Qed.

Example GetUpdatedContents_last_written_run :
  let sig := {| scm.Name := "n"; scm.Email := "e" |} in
  let update content :=
    CallUpdateFile context_Background "r" "feature" "a.txt" "msg" "abc" sig
      (bytes_of content) in
  GetUpdatedContents
    (exec (New (testing_T_named "T"))
       [update "one"; update "two";
        AssignUpdateFileErr (Some (errors_New "outage")); update "three"])
    "r" "a.txt" "feature"
  = bytes_of "two".
Proof. vm_compute. reflexivity. Qed.

(** ** Created branches *)

Lemma omap_cons_eq {A B : Type} (f : A → option B) (x : A) (l : list A) :
  omap f (x :: l)
  = match f x with
    | Some y => y :: omap f l
    | None => omap f l
    end.
Proof. reflexivity. Qed.

(** Only a successful [CreateBranch] writes the table of created
    branches, and what it writes is [true]. *)
Lemma step_createdBranches (m : MockClient) (c : call) :
  createdBranches (fst (step m c))
  = match branched (c, snd (step m c)) with
    | Some k => <[k := true]> (createdBranches m)
    | None => createdBranches m
    end.
Proof. by_step m c; reflexivity. Qed.

Lemma createdBranches_exec_dom (m : MockClient) (cs : list call) :
  dom (createdBranches (exec m cs))
  = dom (createdBranches m) ∪ list_to_set (omap branched (trace m cs)).
Proof.
  revert m. induction cs as [|c cs IH]; intros m; cbn [exec trace].
  - cbn. rewrite (right_id_L ∅ (∪)). reflexivity.
  - rewrite IH, step_createdBranches, omap_cons_eq.
    destruct (branched (c, snd (step m c))) as [k|]; [|reflexivity].
    rewrite dom_insert_L, list_to_set_cons.
    rewrite (comm_L (∪) {[k]} (dom (createdBranches m))), <- (assoc_L (∪)).
    reflexivity.
Qed.

Lemma AssertBranchCreated_dom (m : MockClient) (repo branch sha : string) :
  AssertBranchCreated m repo branch sha = Pass
  ↔ key [repo; branch; sha] ∈ dom (createdBranches m).
Proof.
  unfold AssertBranchCreated. rewrite elem_of_dom.
  destruct (createdBranches m !! key [repo; branch; sha]) eqn:Hk.
  - split; [intros _; eexists; reflexivity | reflexivity].
  - split; [discriminate | intros [? ?]; discriminate].
Qed.

Lemma RefuteBranchCreated_dom (m : MockClient) (repo branch sha : string) :
  RefuteBranchCreated m repo branch sha = Pass
  ↔ key [repo; branch; sha] ∉ dom (createdBranches m).
Proof.
  unfold RefuteBranchCreated. rewrite elem_of_dom.
  destruct (createdBranches m !! key [repo; branch; sha]) eqn:Hk.
  - split; [discriminate | intros Hn; exfalso; apply Hn; eexists; reflexivity].
  - split; [intros _ [? ?]; discriminate | reflexivity].
Qed.

(** X3. On the fixture reached from [New] by any sequence of calls,
    [AssertBranchCreated(repository, branch, revision)] passes exactly
    when some [CreateBranch] call of the sequence returned without error
    with arguments joining to the same key, and [RefuteBranchCreated]
    passes exactly when none did. On every fixture exactly one of the
    two passes. *)
Theorem AssertBranchCreated_iff_created (t0 : testing_T) (cs : list call)
    (repo branch sha : string) :
  (AssertBranchCreated (exec (New t0) cs) repo branch sha = Pass
   ↔ In (key [repo; branch; sha]) (omap branched (trace (New t0) cs)))
  ∧ (RefuteBranchCreated (exec (New t0) cs) repo branch sha = Pass
     ↔ ¬ In (key [repo; branch; sha]) (omap branched (trace (New t0) cs)))
  ∧ (∀ m, AssertBranchCreated m repo branch sha = Pass
          ↔ RefuteBranchCreated m repo branch sha ≠ Pass).
Proof.
  rewrite AssertBranchCreated_dom, RefuteBranchCreated_dom,
    createdBranches_exec_dom.
  change (dom (createdBranches (New t0))) with (∅ : gset string).
  rewrite (left_id_L ∅ (∪)), elem_of_list_to_set, list_elem_of_In.
  split; [tauto|]. split; [tauto|].
  intros m. unfold AssertBranchCreated, RefuteBranchCreated.
  destruct (createdBranches m !! key [repo; branch; sha]).
  - split; [discriminate | reflexivity].
  - split; [discriminate | intros H; exfalso; apply H; reflexivity].
Qed.

(** X5. On the fixture reached from [New] by any sequence of calls,
    [AssertNoBranchesCreated] passes exactly when no [CreateBranch] call
    returned without error; otherwise it fails the test and the count it
    reports is the number of distinct keys created, a key created twice
    counting once. *)
Theorem AssertNoBranchesCreated_count (t0 : testing_T) (cs : list call) :
  let keys : gset string := list_to_set (omap branched (trace (New t0) cs)) in
  AssertNoBranchesCreated (exec (New t0) cs)
  = (if (0 <? size keys)%nat
     then Fatalf "expected no branches to be created: got %d"
            [Int (Z.of_nat (size keys))]
     else Pass)
  ∧ (AssertNoBranchesCreated (exec (New t0) cs) = Pass
     ↔ omap branched (trace (New t0) cs) = []).
Proof.
  cbv zeta. unfold AssertNoBranchesCreated.
  rewrite <- size_dom, createdBranches_exec_dom.
  change (dom (createdBranches (New t0))) with (∅ : gset string).
  rewrite (left_id_L ∅ (∪)). split; [reflexivity|].
  destruct (omap branched (trace (New t0) cs)) as [|k l].
  - split; reflexivity.
  - rewrite list_to_set_cons, size_union_alt, size_singleton. cbn.
    split; discriminate.
Qed.

Example AssertNoBranchesCreated_count_run :
  AssertNoBranchesCreated
    (exec (New (testing_T_named "T"))
       [CallCreateBranch context_Background "r" "feature" "abc";
        CallCreateBranch context_Background "r" "feature" "abc";
        CallCreateBranch context_Background "r" "fix" "abc"])
  = Fatalf "expected no branches to be created: got %d" [Int 2].
Proof. vm_compute. reflexivity. Qed.

(** ** The record of pull requests *)

(** Only a successful [CreatePullRequest] writes the table of pull
    requests, and what it writes is the repository's record with the
    input appended. *)
Lemma step_createdPullRequests (m : MockClient) (c : call) :
  (requested (c, snd (step m c)) = None
   ∧ createdPullRequests (fst (step m c)) = createdPullRequests m)
  ∨ (∃ r inp,
        requested (c, snd (step m c)) = Some r
        ∧ createdPullRequests (fst (step m c))
          = <[r := pullRequestsOf m r ++ [inp]]> (createdPullRequests m)).
Proof.
  destruct c as [| | |ctx r inp| | | | | | | |].
  4: { unfold step, CreatePullRequest, requested, pullRequestsOf.
       destruct (CreatePullRequestErr m) eqn:Herr; cbn [fst snd].
       - left. split; reflexivity.
       - right. exists r, inp. split; reflexivity. }
  all: left; split; [reflexivity|]; destruct m; cbn; unfold_ops; cbn;
    repeat (destruct_scrutinee; cbn); reflexivity.
Qed.

Lemma createdPullRequests_exec_dom (m : MockClient) (cs : list call) :
  dom (createdPullRequests (exec m cs))
  = dom (createdPullRequests m) ∪ list_to_set (omap requested (trace m cs)).
Proof.
  revert m. induction cs as [|c cs IH]; intros m; cbn [exec trace].
  - cbn. rewrite (right_id_L ∅ (∪)). reflexivity.
  - rewrite IH, omap_cons_eq.
    destruct (step_createdPullRequests m c) as [[-> ->]|(r & inp & -> & ->)];
      [reflexivity|].
    rewrite dom_insert_L, list_to_set_cons.
    rewrite (comm_L (∪) {[r]} (dom (createdPullRequests m))), <- (assoc_L (∪)).
    reflexivity.
Qed.

Lemma step_well_recorded (m : MockClient) (c : call) :
  well_recorded m → well_recorded (fst (step m c)).
Proof.
  intros [Hb Hp]. split.
  - intros k v. rewrite step_createdBranches.
    destruct (branched (c, snd (step m c))) as [k'|]; [|apply Hb].
    rewrite lookup_insert_Some. intros [[_ <-]|[_ Hold]]; [reflexivity|].
    eapply Hb, Hold.
  - intros repo l.
    destruct (step_createdPullRequests m c) as [[_ ->]|(r & inp & _ & ->)];
      [apply Hp|].
    rewrite lookup_insert_Some. intros [[_ <-]|[_ Hold]].
    + intros Hnil. apply app_eq_nil in Hnil as [_ Hnil]. discriminate Hnil.
    + eapply Hp, Hold.
Qed.

Lemma exec_well_recorded (m : MockClient) (cs : list call) :
  well_recorded m → well_recorded (exec m cs).
Proof.
  revert m. induction cs as [|c cs IH]; intros m Hm; [exact Hm|].
  cbn [exec]. apply IH, step_well_recorded, Hm.
Qed.

Lemma New_well_recorded (t0 : testing_T) : well_recorded (New t0).
Proof.
  split; intros ? ? Hl; cbn in Hl; rewrite lookup_empty in Hl; discriminate Hl.
Qed.

Lemma AssertNoPullRequestsCreated_empty (m : MockClient) :
  AssertNoPullRequestsCreated m = Pass ↔ createdPullRequests m = ∅.
Proof.
  unfold AssertNoPullRequestsCreated. rewrite <- map_size_empty_iff.
  destruct (size (createdPullRequests m)); cbn; [tauto|].
  split; [discriminate | lia].
Qed.

Lemma AssertNoBranchesCreated_empty (m : MockClient) :
  AssertNoBranchesCreated m = Pass ↔ createdBranches m = ∅.
Proof.
  unfold AssertNoBranchesCreated. rewrite <- map_size_empty_iff.
  destruct (size (createdBranches m)); cbn; [tauto|].
  split; [discriminate | lia].
Qed.

(** X6. On the fixture reached from [New] by any sequence of calls,
    [AssertNoPullRequestsCreated] passes exactly when no
    [CreatePullRequest] call returned without error; otherwise it fails
    the test and the count it reports is the number of distinct
    repositories that received a pull request, not the number of pull
    requests. *)
Theorem AssertNoPullRequestsCreated_count (t0 : testing_T) (cs : list call) :
  let repos : gset string := list_to_set (omap requested (trace (New t0) cs)) in
  AssertNoPullRequestsCreated (exec (New t0) cs)
  = (if (0 <? size repos)%nat
     then Fatalf "expected no PullRequests to be created: got %d"
            [Int (Z.of_nat (size repos))]
     else Pass)
  ∧ (AssertNoPullRequestsCreated (exec (New t0) cs) = Pass
     ↔ omap requested (trace (New t0) cs) = []).
Proof.
  cbv zeta. unfold AssertNoPullRequestsCreated.
  rewrite <- size_dom, createdPullRequests_exec_dom.
  change (dom (createdPullRequests (New t0))) with (∅ : gset string).
  rewrite (left_id_L ∅ (∪)). split; [reflexivity|].
  destruct (omap requested (trace (New t0) cs)) as [|k l].
  - split; reflexivity.
  - rewrite list_to_set_cons, size_union_alt, size_singleton. cbn.
    split; discriminate.
Qed.

Example AssertNoPullRequestsCreated_count_run :
  AssertNoPullRequestsCreated
    (exec (New (testing_T_named "T"))
       [CallCreatePullRequest context_Background "r" None;
        CallCreatePullRequest context_Background "r" None;
        CallCreatePullRequest context_Background "r" None])
  = Fatalf "expected no PullRequests to be created: got %d" [Int 1].
Proof. vm_compute. reflexivity. Qed.

(** X13. On the fixture reached from [New] by any sequence of calls,
    every entry of the table of created branches holds [true] and every
    repository present in the table of pull requests has at least one
    recorded input; so [AssertNoPullRequestsCreated] passes exactly when
    the record of every repository is empty. *)
Theorem recorded_entries_shape (t0 : testing_T) (cs : list call) :
  (∀ k v, createdBranches (exec (New t0) cs) !! k = Some v → v = true)
  ∧ (∀ repo l, createdPullRequests (exec (New t0) cs) !! repo = Some l → l ≠ [])
  ∧ (AssertNoPullRequestsCreated (exec (New t0) cs) = Pass
     ↔ ∀ repo, pullRequestsOf (exec (New t0) cs) repo = []).
Proof.
  destruct (exec_well_recorded (New t0) cs (New_well_recorded t0)) as [Hb Hp].
  split; [exact Hb|]. split; [exact Hp|].
  rewrite AssertNoPullRequestsCreated_empty. unfold pullRequestsOf. split.
  - intros -> repo. rewrite lookup_empty. reflexivity.
  - intros Hall. apply map_empty. intros repo. specialize (Hall repo).
    destruct (createdPullRequests (exec (New t0) cs) !! repo) as [l|] eqn:Hl;
      [|reflexivity].
    subst l. exfalso. exact (Hp repo [] Hl eq_refl).
Qed.

(** X4. On the fixture reached from [New] by any sequence of calls,
    [RefutePullRequestCreated(repository, input)] passes exactly when no
    [CreatePullRequest] call on that repository returned without error
    with an input equal to the given one. On every fixture exactly one of
    [AssertPullRequestCreated] and [RefutePullRequestCreated] passes. *)
Theorem RefutePullRequestCreated_iff_absent (t0 : testing_T) (cs : list call)
    (repo : string) (inp : option scm.PullRequestInput) :
  (RefutePullRequestCreated (exec (New t0) cs) repo inp = Pass
   ↔ ¬ In inp (map fst (omap (submitted repo) (trace (New t0) cs))))
  ∧ (∀ m, AssertPullRequestCreated m repo inp = Pass
          ↔ RefutePullRequestCreated m repo inp ≠ Pass).
Proof.
  split.
  - destruct (exec_submitted repo (New t0) cs) as (Hl & _).
    change (pullRequestsOf (New t0) repo)
      with (@nil (option scm.PullRequestInput)) in Hl.
    cbn [app] in Hl. unfold RefutePullRequestCreated. rewrite Hl.
    rewrite <- existsb_DeepEqual.
    destruct (existsb (DeepEqual inp) _).
    + split; [discriminate | intros H; exfalso; apply H; reflexivity].
    + split; [intros _; discriminate | reflexivity].
  - intros m. unfold AssertPullRequestCreated, RefutePullRequestCreated.
    destruct (existsb (DeepEqual inp) (pullRequestsOf m repo)).
    + split; [discriminate | reflexivity].
    + split; [discriminate | intros H; exfalso; apply H; reflexivity].
Qed.

Lemma CreatePullRequest_ok (m : MockClient) (ctx : Context) (repo : string)
    (inp : option scm.PullRequestInput) :
  CreatePullRequestErr m = None →
  CreatePullRequest m ctx repo inp
  = (set_createdPullRequests
       (<[repo := pullRequestsOf m repo ++ [inp]]> (createdPullRequests m)) m,
     (Some {| scm.Number := Z.of_nat (length (pullRequestsOf m repo ++ [inp]));
              scm.Link := "https://example.com/pull-request/"
                          +:+ Sprintf_d
                                (Z.of_nat (length (pullRequestsOf m repo ++ [inp]))) |},
      None)).
Proof. unfold CreatePullRequest, pullRequestsOf. intros ->. reflexivity. Qed.

Lemma pullRequestsOf_insert (m : MockClient) (repo repo' : string)
    (l : list (option scm.PullRequestInput)) :
  pullRequestsOf
    (set_createdPullRequests (<[repo := l]> (createdPullRequests m)) m) repo'
  = if decide (repo = repo') then l else pullRequestsOf m repo'.
Proof.
  unfold pullRequestsOf. cbn [createdPullRequests set_createdPullRequests].
  destruct (decide (repo = repo')) as [->|Hne].
  - rewrite lookup_insert_eq. reflexivity.
  - rewrite lookup_insert_ne by exact Hne. reflexivity.
Qed.

Lemma length_snoc_Z {A : Type} (l : list A) (x : A) :
  Z.of_nat (length (l ++ [x])) = (Z.of_nat (length l) + 1)%Z.
Proof. rewrite length_app. cbn [length]. lia. Qed.

(** X8. With no [CreatePullRequest] override set, one call appends its
    input to the record of its repository and to no other, and returns
    the new length of that record with the link made of it; the result
    depends on that length alone, not on the repository or the input.
    Inputs are not deduplicated: the same input submitted again gets the
    next number. After the call [AssertPullRequestCreated] passes for the
    input and for every input it passed for before, and
    [RefutePullRequestCreated] fails the test for the input. *)
Theorem CreatePullRequest_appends (m : MockClient) (ctx : Context)
    (repo : string) (inp : option scm.PullRequestInput) :
  CreatePullRequestErr m = None →
  let r := CreatePullRequest m ctx repo inp in
  let n := (Z.of_nat (length (pullRequestsOf m repo)) + 1)%Z in
  snd r = (Some {| scm.Number := n;
                   scm.Link := "https://example.com/pull-request/"
                               +:+ Sprintf_d n |}, None)
  ∧ pullRequestsOf (fst r) repo = pullRequestsOf m repo ++ [inp]
  ∧ (∀ repo', repo' ≠ repo → pullRequestsOf (fst r) repo' = pullRequestsOf m repo')
  ∧ (∀ m' ctx' repo' inp',
        CreatePullRequestErr m' = None →
        length (pullRequestsOf m' repo') = length (pullRequestsOf m repo) →
        snd (CreatePullRequest m' ctx' repo' inp') = snd r)
  ∧ (let r2 := CreatePullRequest (fst r) ctx repo inp in
     fst (snd r2)
     = Some {| scm.Number := (n + 1)%Z;
               scm.Link := "https://example.com/pull-request/"
                           +:+ Sprintf_d (n + 1)%Z |}
     ∧ pullRequestsOf (fst r2) repo = pullRequestsOf m repo ++ [inp; inp])
  ∧ AssertPullRequestCreated (fst r) repo inp = Pass
  ∧ RefutePullRequestCreated (fst r) repo inp
    = Fatalf "pullrequest was created in repo %s" [Str repo]
  ∧ (∀ inp', AssertPullRequestCreated m repo inp' = Pass →
             AssertPullRequestCreated (fst r) repo inp' = Pass).
Proof.
  intros Hnone. cbv zeta.
  rewrite (CreatePullRequest_ok m ctx repo inp Hnone). cbn [fst snd].
  assert (Hrec : pullRequestsOf
                   (set_createdPullRequests
                      (<[repo := pullRequestsOf m repo ++ [inp]]>
                         (createdPullRequests m)) m) repo
                 = pullRequestsOf m repo ++ [inp]).
  { rewrite pullRequestsOf_insert. destruct (decide (repo = repo)); congruence. }
  assert (Hin : existsb (DeepEqual inp) (pullRequestsOf m repo ++ [inp]) = true).
  { apply existsb_DeepEqual, in_or_app. right. left. reflexivity. }
  split; [rewrite length_snoc_Z; reflexivity|].
  split; [exact Hrec|].
  split.
  { intros repo' Hne. rewrite pullRequestsOf_insert.
    destruct (decide (repo = repo')); congruence. }
  split.
  { intros m' ctx' repo' inp' Hnone' Hlen.
    rewrite (CreatePullRequest_ok m' ctx' repo' inp' Hnone'). cbn [snd].
    rewrite !length_app, Hlen. reflexivity. }
  split.
  { rewrite CreatePullRequest_ok by (destruct m; exact Hnone). cbn [fst snd].
    rewrite Hrec, pullRequestsOf_insert.
    destruct (decide (repo = repo)) as [_|Hne]; [|congruence].
    split; [rewrite !length_snoc_Z; reflexivity|].
    rewrite <- app_assoc. reflexivity. }
  unfold AssertPullRequestCreated, RefutePullRequestCreated.
  rewrite Hrec, Hin. split; [reflexivity|]. split; [reflexivity|].
  intros inp'. rewrite existsb_app.
  destruct (existsb (DeepEqual inp') (pullRequestsOf m repo)); cbn;
    [reflexivity | discriminate].
Qed.

Lemma CreatePullRequest_appends_witness :
  let pr := Some {| scm.Title := "t"; scm.Head := "feature";
                    scm.Base := "main"; scm.Body := "" |} in
  snd (CreatePullRequest (New (testing_T_named "T")) context_Background "r" pr)
  = (Some {| scm.Number := 1;
             scm.Link := "https://example.com/pull-request/"
                         +:+ Sprintf_d 1 |}, None).
Proof.
  intros pr.
  exact (proj1 (CreatePullRequest_appends (New (testing_T_named "T"))
                  context_Background "r" pr eq_refl)).
Defined.

(** ** Links *)

Lemma Sprintf_d_inj (n n' : Z) : Sprintf_d n = Sprintf_d n' → n = n'.
Proof.
  intros Heq. pose proof (Sprintf_d_parse n) as Hn.
  rewrite Heq, Sprintf_d_parse in Hn. congruence.
Qed.

Lemma append_inv_head (p a b : string) : p +:+ a = p +:+ b → a = b.
Proof.
  induction p as [|c p IH]; cbn; [auto|]. intros [= H]. auto.
Qed.

Lemma NoDup_map_inj {A B : Type} (f : A → B) (l : list A) :
  (∀ x y, f x = f y → x = y) → NoDup l → NoDup (map f l).
Proof.
  intros Hinj. induction 1 as [|x l Hx Hl IH]; cbn; constructor; [|exact IH].
  intros Hin. apply list_elem_of_In, in_map_iff in Hin as (y & Heq & Hy).
  apply Hinj in Heq. subst y. apply Hx, list_elem_of_In, Hy.
Qed.

(** X15. Among the pull requests a sequence of calls on a fresh fixture
    created on one repository, no two have the same link; and each link
    is the fixed prefix followed by digits that read back, as a decimal
    number, as the number returned with it. *)
Theorem CreatePullRequest_links_distinct (t0 : testing_T) (cs : list call)
    (repo : string) :
  let prs := map snd (omap (created repo) (trace (New t0) cs)) in
  NoDup (map scm.Link prs)
  ∧ Forall (λ pr, ∃ digits,
                scm.Link pr = "https://example.com/pull-request/" +:+ digits
                ∧ option_map Z.of_int (NilZero.int_of_string digits)
                  = Some (scm.Number pr)) prs.
Proof.
  cbv zeta. destruct (exec_created repo (New t0) cs) as (_ & Hn & Hk).
  set (l := omap (created repo) (trace (New t0) cs)) in *. clearbody l.
  assert (Hlinks : map scm.Link (map snd l)
                   = map (λ n, "https://example.com/pull-request/" +:+ Sprintf_d n)
                       (map (λ p, scm.Number (snd p)) l)).
  { clear Hn. induction Hk as [|p l Hp Hl IH]; [reflexivity|].
    cbn [map]. rewrite Hp, IH. reflexivity. }
  split.
  - rewrite Hlinks, Hn. apply NoDup_map_inj.
    + intros n n' Heq. apply Sprintf_d_inj. eapply append_inv_head, Heq.
    + apply NoDup_map_inj; [apply Nat2Z.inj | apply NoDup_seq].
  - clear Hn Hlinks. induction Hk as [|p l Hp Hl IH]; cbn [map]; constructor.
    + exists (Sprintf_d (scm.Number (snd p))). split; [exact Hp|].
      apply Sprintf_d_parse.
    + exact IH.
Qed.

(** ** The composite assertion *)

(** X7. On every fixture [AssertNoInteractions] passes exactly when the
    table of updated files is empty and both [AssertNoBranchesCreated]
    and [AssertNoPullRequestsCreated] pass; and when it passes,
    [GetUpdatedContents] is nil for every key and every
    [RefuteBranchCreated] and [RefutePullRequestCreated] passes. *)
Theorem AssertNoInteractions_parts (m : MockClient) :
  (AssertNoInteractions m = Pass
   ↔ updatedFiles m = ∅
     ∧ AssertNoBranchesCreated m = Pass
     ∧ AssertNoPullRequestsCreated m = Pass)
  ∧ (AssertNoInteractions m = Pass →
     ∀ repo path ref branch sha inp,
       GetUpdatedContents m repo path ref = None
       ∧ RefuteBranchCreated m repo branch sha = Pass
       ∧ RefutePullRequestCreated m repo inp = Pass).
Proof.
  rewrite AssertNoInteractions_untouched, AssertNoBranchesCreated_empty,
    AssertNoPullRequestsCreated_empty.
  split; [reflexivity|].
  intros (Hu & Hb & Hp) repo path ref branch sha inp.
  unfold GetUpdatedContents, RefuteBranchCreated, RefutePullRequestCreated,
    pullRequestsOf.
  rewrite Hu, Hb, Hp, !lookup_empty. auto.
Qed.

Lemma AssertNoInteractions_parts_witness :
  let m := AddFileContents (New (testing_T_named "T")) "r" "a.txt" "main"
             (bytes_of "hello") in
  GetUpdatedContents m "r" "a.txt" "main" = None
  ∧ RefuteBranchCreated m "r" "feature" "abc" = Pass
  ∧ RefutePullRequestCreated m "r" None = Pass.
Proof.
  intros m.
  exact (proj2 (AssertNoInteractions_parts m) eq_refl
           "r" "a.txt" "main" "feature" "abc" None).
Defined.

(** ** How calls compose *)

(** X9. Seeding is last-write-wins: a second [AddFileContents] (or
    [AddBranchHead]) under the same key leaves the fixture as if only the
    second had been made; seedings under different keys, and seedings of
    the two different tables, can be made in either order. *)
Theorem seeding_last_wins (m : MockClient)
    (repo path ref branch repo' path' ref' branch' sha sha' : string)
    (body body' : slice) :
  AddFileContents (AddFileContents m repo path ref body) repo path ref body'
  = AddFileContents m repo path ref body'
  ∧ AddBranchHead (AddBranchHead m repo branch sha) repo branch sha'
    = AddBranchHead m repo branch sha'
  ∧ (key [repo; path; ref] ≠ key [repo'; path'; ref'] →
     AddFileContents (AddFileContents m repo path ref body) repo' path' ref' body'
     = AddFileContents (AddFileContents m repo' path' ref' body') repo path ref body)
  ∧ (key [repo; branch] ≠ key [repo'; branch'] →
     AddBranchHead (AddBranchHead m repo branch sha) repo' branch' sha'
     = AddBranchHead (AddBranchHead m repo' branch' sha') repo branch sha)
  ∧ AddBranchHead (AddFileContents m repo path ref body) repo' branch' sha'
    = AddFileContents (AddBranchHead m repo' branch' sha') repo path ref body.
Proof.
  destruct m. unfold AddFileContents, AddBranchHead, set_files, set_branchHeads.
  cbn [t files GetFileErr updatedFiles UpdateFileErr createdBranches
       CreateBranchErr branchHeads createdPullRequests CreatePullRequestErr].
  rewrite !insert_insert_eq.
  split; [reflexivity|]. split; [reflexivity|].
  split; [|split; [|reflexivity]]; intros Hne; f_equal;
    apply insert_insert_ne; congruence.
Qed.

Lemma seeding_last_wins_witness :
  let m := New (testing_T_named "T") in
  AddFileContents (AddFileContents m "r" "a.txt" "main" (bytes_of "x"))
    "r" "b.txt" "main" (bytes_of "y")
  = AddFileContents (AddFileContents m "r" "b.txt" "main" (bytes_of "y"))
      "r" "a.txt" "main" (bytes_of "x").
Proof.
  intros m.
  refine (proj1 (proj2 (proj2
    (seeding_last_wins m "r" "a.txt" "main" "main" "r" "b.txt" "main" "main"
       "abc" "def" (bytes_of "x") (bytes_of "y")))) _).
  discriminate.
Defined.

Lemma seed_write_step (m : MockClient) (s w : call) :
  is_seed s = true → is_write w = true →
  fst (step (fst (step m s)) w) = fst (step (fst (step m w)) s)
  ∧ snd (step (fst (step m s)) w) = snd (step m w).
Proof.
  intros Hs Hw.
  destruct s; try discriminate Hs; destruct w; try discriminate Hw;
    destruct m; cbn; unfold_ops; cbn; repeat (destruct_scrutinee; cbn);
    split; reflexivity.
Qed.

Lemma seed_writes_exec (m : MockClient) (s : call) (ws : list call) :
  is_seed s = true → forallb is_write ws = true →
  exec (fst (step m s)) ws = fst (step (exec m ws) s)
  ∧ trace (fst (step m s)) ws = trace m ws.
Proof.
  intros Hs. revert m. induction ws as [|w ws IH]; intros m Hws;
    [split; reflexivity|].
  cbn in Hws. apply andb_prop in Hws as [Hw Hws]. cbn [exec trace].
  destruct (seed_write_step m s w Hs Hw) as [-> ->].
  destruct (IH (fst (step m w)) Hws) as [-> ->]. split; reflexivity.
Qed.

(** X10. Seeding and writing commute: a run of [AddFileContents] and
    [AddBranchHead] calls followed by a run of [UpdateFile],
    [DeleteFile], [CreateBranch] and [CreatePullRequest] calls leaves the
    same fixture as the writes followed by the seedings, and every write
    returns the same result whether the seedings were made before it or
    not. *)
Theorem seeds_commute_with_writes (m : MockClient) (seeds writes : list call) :
  forallb is_seed seeds = true → forallb is_write writes = true →
  exec m (seeds ++ writes) = exec m (writes ++ seeds)
  ∧ trace (exec m seeds) writes = trace m writes.
Proof.
  intros Hss Hws. revert m. induction seeds as [|s ss IH]; intros m.
  - cbn. rewrite app_nil_r. split; reflexivity.
  - cbn in Hss. apply andb_prop in Hss as [Hs Hss]. cbn [app exec].
    destruct (IH Hss (fst (step m s))) as [-> ->].
    destruct (seed_writes_exec m s writes Hs Hws) as [Hexec ->].
    rewrite !exec_app, Hexec. split; reflexivity.
Qed.

Lemma seeds_commute_with_writes_witness :
  let m := New (testing_T_named "T") in
  let seeds := [CallAddFileContents "r" "a.txt" "main" (bytes_of "hello");
                CallAddBranchHead "r" "main" "abc"] in
  let writes := [CallCreateBranch context_Background "r" "feature" "abc";
                 CallCreatePullRequest context_Background "r" None] in
  exec m (seeds ++ writes) = exec m (writes ++ seeds)
  ∧ trace (exec m seeds) writes = trace m writes.
Proof.
  intros m seeds writes.
  exact (seeds_commute_with_writes m seeds writes eq_refl eq_refl).
Defined.

(** ** Override fields over time *)

Lemma step_overrides (m : MockClient) (c : call) :
  is_assign c = false →
  GetFileErr (fst (step m c)) = GetFileErr m
  ∧ UpdateFileErr (fst (step m c)) = UpdateFileErr m
  ∧ CreateBranchErr (fst (step m c)) = CreateBranchErr m
  ∧ CreatePullRequestErr (fst (step m c)) = CreatePullRequestErr m.
Proof. intros Hc. by_step m c; try discriminate Hc; auto. Qed.

Lemma exec_overrides (m : MockClient) (cs : list call) :
  forallb (λ c, negb (is_assign c)) cs = true →
  GetFileErr (exec m cs) = GetFileErr m
  ∧ UpdateFileErr (exec m cs) = UpdateFileErr m
  ∧ CreateBranchErr (exec m cs) = CreateBranchErr m
  ∧ CreatePullRequestErr (exec m cs) = CreatePullRequestErr m.
Proof.
  revert m. induction cs as [|c cs IH]; intros m Hcs; [auto|].
  cbn in Hcs. apply andb_prop in Hcs as [Hc Hcs]. cbn [exec].
  destruct (IH (fst (step m c)) Hcs) as (-> & -> & -> & ->).
  apply step_overrides. destruct (is_assign c); [discriminate Hc | reflexivity].
Qed.

(** X11. No method of the fixture clears or sets an override field: over
    any sequence of client and seeding calls the four fields stay as the
    test assigned them. In particular an injected [GetFile] error keeps
    being returned, even for a file seeded after the injection, until the
    test assigns the field again. *)
Theorem overrides_persist (m : MockClient) (cs : list call) :
  forallb (λ c, negb (is_assign c)) cs = true →
  (GetFileErr (exec m cs) = GetFileErr m
   ∧ UpdateFileErr (exec m cs) = UpdateFileErr m
   ∧ CreateBranchErr (exec m cs) = CreateBranchErr m
   ∧ CreatePullRequestErr (exec m cs) = CreatePullRequestErr m)
  ∧ (∀ e ctx repo ref path,
        GetFileErr m = Some e →
        GetFile (exec m cs) ctx repo ref path
        = (Some {| scm.Data := None; scm.Sha := "" |}, Some e)).
Proof.
  intros Hcs. pose proof (exec_overrides m cs Hcs) as Hall.
  split; [exact Hall|]. destruct Hall as (Hg & _).
  intros e ctx repo ref path He. unfold GetFile. rewrite Hg, He. reflexivity.
Qed.

Lemma overrides_persist_witness :
  let m := set_GetFileErr (Some (errors_New "outage")) (New (testing_T_named "T")) in
  let cs := [CallAddFileContents "r" "a.txt" "main" (bytes_of "hello");
             CallGetFile context_Background "r" "main" "a.txt"] in
  GetFile (exec m cs) context_Background "r" "main" "a.txt"
  = (Some {| scm.Data := None; scm.Sha := "" |}, Some (errors_New "outage")).
Proof.
  intros m cs.
  exact (proj2 (overrides_persist m cs eq_refl) (errors_New "outage")
           context_Background "r" "main" "a.txt" eq_refl).
Defined.

(** ** Nothing is ever removed *)

Lemma exec_dom_grows {V : Type} (table : MockClient → gmap string V) :
  (∀ m c, dom (table m) ⊆ dom (table (fst (step m c)))) →
  ∀ cs m, dom (table m) ⊆ dom (table (exec m cs)).
Proof.
  intros Hstep. induction cs as [|c cs IH]; intros m; cbn [exec]; [reflexivity|].
  etrans; [apply (Hstep m c) | apply IH].
Qed.

Lemma step_files_grows (m : MockClient) (c : call) :
  dom (files m) ⊆ dom (files (fst (step m c))).
Proof.
  rewrite step_files. destruct c; try reflexivity. apply dom_insert_subseteq.
Qed.

Lemma step_branchHeads_grows (m : MockClient) (c : call) :
  dom (branchHeads m) ⊆ dom (branchHeads (fst (step m c))).
Proof.
  rewrite step_branchHeads. destruct c; try reflexivity.
  apply dom_insert_subseteq.
Qed.

Lemma step_updatedFiles_grows (m : MockClient) (c : call) :
  dom (updatedFiles m) ⊆ dom (updatedFiles (fst (step m c))).
Proof.
  rewrite step_updatedFiles.
  destruct (updated (c, snd (step m c))) as [[k content]|]; [|reflexivity].
  apply dom_insert_subseteq.
Qed.

(** X12. No call removes anything. Over any sequence of calls on any
    fixture, every key present in one of the five tables stays present,
    and the record of pull-request inputs of every repository only gets
    longer at its end. So a file or branch head that was found stays
    found, and an [AssertBranchCreated] or [AssertPullRequestCreated]
    that passed keeps passing. *)
Theorem tables_only_grow (m : MockClient) (cs : list call) :
  (dom (files m) ⊆ dom (files (exec m cs))
   ∧ dom (branchHeads m) ⊆ dom (branchHeads (exec m cs))
   ∧ dom (updatedFiles m) ⊆ dom (updatedFiles (exec m cs))
   ∧ dom (createdBranches m) ⊆ dom (createdBranches (exec m cs))
   ∧ dom (createdPullRequests m) ⊆ dom (createdPullRequests (exec m cs)))
  ∧ (∀ repo, ∃ more,
        pullRequestsOf (exec m cs) repo = pullRequestsOf m repo ++ more)
  ∧ (∀ ctx repo branch,
        snd (GetBranchHead m ctx repo branch) = None →
        snd (GetBranchHead (exec m cs) ctx repo branch) = None)
  ∧ (∀ repo branch sha,
        AssertBranchCreated m repo branch sha = Pass →
        AssertBranchCreated (exec m cs) repo branch sha = Pass)
  ∧ (∀ repo inp,
        AssertPullRequestCreated m repo inp = Pass →
        AssertPullRequestCreated (exec m cs) repo inp = Pass).
Proof.
  assert (Hheads : dom (branchHeads m) ⊆ dom (branchHeads (exec m cs)))
    by apply (exec_dom_grows branchHeads step_branchHeads_grows).
  assert (Hbranches : dom (createdBranches m) ⊆ dom (createdBranches (exec m cs)))
    by (rewrite createdBranches_exec_dom; apply union_subseteq_l).
  split; [|split; [|split; [|split]]].
  - split; [apply (exec_dom_grows files step_files_grows)|].
    split; [exact Hheads|].
    split; [apply (exec_dom_grows updatedFiles step_updatedFiles_grows)|].
    split; [exact Hbranches|].
    rewrite createdPullRequests_exec_dom. apply union_subseteq_l.
  - intros repo. destruct (exec_created repo m cs) as (-> & _). eexists.
    reflexivity.
  - intros ctx repo branch. unfold GetBranchHead.
    destruct (branchHeads m !! key [repo; branch]) as [sha|] eqn:Hk;
      [intros _ | discriminate].
    assert (Hin : key [repo; branch] ∈ dom (branchHeads (exec m cs))).
    { apply Hheads, elem_of_dom. eexists. exact Hk. }
    apply elem_of_dom in Hin as [sha' ->]. reflexivity.
  - intros repo branch sha. rewrite !AssertBranchCreated_dom. apply Hbranches.
  - intros repo inp. unfold AssertPullRequestCreated.
    destruct (exec_created repo m cs) as (-> & _). rewrite existsb_app.
    destruct (existsb (DeepEqual inp) (pullRequestsOf m repo)); cbn;
      [reflexivity | discriminate].
Qed.

Lemma tables_only_grow_witness :
  let sig := {| scm.Name := "n"; scm.Email := "e" |} in
  let m := fst (CreateBranch (New (testing_T_named "T")) context_Background
                  "r" "feature" "abc") in
  let cs := [CallDeleteFile context_Background "r" "feature" "a.txt" "msg"
               "abc" sig None;
             CallCreateBranch context_Background "r" "fix" "abc"] in
  AssertBranchCreated (exec m cs) "r" "feature" "abc" = Pass.
Proof.
  intros sig m cs.
  exact (proj1 (proj2 (proj2 (proj2 (tables_only_grow m cs))))
           "r" "feature" "abc" eq_refl).
Defined.

(** ** Keys of any arity *)

(** X14. [key] loses nothing on components free of ":": two lists of
    the same length whose components before the last hold no ":" and
    that join to the same key are the same list. *)
Theorem key_inj (l1 l2 : list string) :
  length l1 = length l2 →
  forallb no_sep (removelast l1) = true →
  forallb no_sep (removelast l2) = true →
  key l1 = key l2 → l1 = l2.
Proof.
  revert l2. induction l1 as [|a l1 IH]; intros [|b l2] Hlen H1 H2 Heq;
    try discriminate Hlen; [reflexivity|].
  destruct l1 as [|x l1], l2 as [|y l2]; try discriminate Hlen.
  - cbn in Heq. subst. reflexivity.
  - change (forallb no_sep (a :: removelast (x :: l1)) = true) in H1.
    change (forallb no_sep (b :: removelast (y :: l2)) = true) in H2.
    cbn [forallb] in H1, H2.
    apply andb_prop in H1 as [Ha H1]. apply andb_prop in H2 as [Hb H2].
    change (a +:+ ":" +:+ key (x :: l1) = b +:+ ":" +:+ key (y :: l2)) in Heq.
    destruct (sep_split _ _ _ _ Ha Hb Heq) as [-> Htl].
    f_equal. apply IH; [injection Hlen; auto | exact H1 | exact H2 | exact Htl].
Qed.

Lemma key_inj_witness :
  ["r"; "a.txt"; "release:1.0"] = ["r"; "a.txt"; "release" +:+ ":1.0"].
Proof.
  exact (key_inj ["r"; "a.txt"; "release:1.0"] ["r"; "a.txt"; "release" +:+ ":1.0"]
           eq_refl eq_refl eq_refl eq_refl).
Defined.

(** ** A write of nil content *)

(** X16. Under a key that holds no update, and with no [UpdateFile]
    override set, an [UpdateFile] with nil content returns no error and
    leaves every [GetUpdatedContents] result as it was, nil under that
    key included; the write is recorded all the same, and
    [AssertNoInteractions] fails the test after it. *)
Theorem UpdateFile_nil_content (m : MockClient) (ctx : Context)
    (repo branch path message previousSHA : string) (signature : scm.Signature) :
  UpdateFileErr m = None →
  updatedFiles m !! key [repo; path; branch] = None →
  let r := UpdateFile m ctx repo branch path message previousSHA signature None in
  snd r = None
  ∧ (∀ repo' path' ref',
        GetUpdatedContents (fst r) repo' path' ref'
        = GetUpdatedContents m repo' path' ref')
  ∧ GetUpdatedContents (fst r) repo path branch = None
  ∧ updatedFiles (fst r) !! key [repo; path; branch] = Some None
  ∧ AssertNoInteractions (fst r) ≠ Pass.
Proof.
  intros Herr Hk. cbv zeta. unfold UpdateFile. rewrite Herr. cbn [fst snd].
  assert (Hget : ∀ repo' path' ref',
             GetUpdatedContents
               (set_updatedFiles
                  (<[key [repo; path; branch] := None]> (updatedFiles m)) m)
               repo' path' ref'
             = GetUpdatedContents m repo' path' ref').
  { intros repo' path' ref'. unfold GetUpdatedContents.
    cbn [updatedFiles set_updatedFiles].
    destruct (decide (key [repo; path; branch] = key [repo'; path'; ref']))
      as [<-|Hne].
    - rewrite lookup_insert_eq, Hk. reflexivity.
    - rewrite lookup_insert_ne by exact Hne. reflexivity. }
  split; [reflexivity|]. split; [exact Hget|].
  split; [rewrite Hget; unfold GetUpdatedContents; rewrite Hk; reflexivity|].
  split; [cbn [updatedFiles set_updatedFiles]; apply lookup_insert_eq|].
  rewrite AssertNoInteractions_untouched. intros (Hu & _).
  cbn [updatedFiles set_updatedFiles] in Hu.
  exact (insert_non_empty _ _ _ Hu).
Qed.

Lemma UpdateFile_nil_content_witness :
  let sig := {| scm.Name := "n"; scm.Email := "e" |} in
  let r := UpdateFile (New (testing_T_named "T")) context_Background
             "r" "feature" "a.txt" "msg" "abc" sig None in
  GetUpdatedContents (fst r) "r" "a.txt" "feature" = None
  ∧ AssertNoInteractions (fst r) ≠ Pass.
Proof.
  intros sig r.
  pose proof (UpdateFile_nil_content (New (testing_T_named "T"))
                context_Background "r" "feature" "a.txt" "msg" "abc" sig
                eq_refl eq_refl) as H.
  cbv zeta in H. destruct H as (_ & _ & H3 & _ & H5). split; assumption.
Defined.
